(** * Interval-based anomaly detection: a model of
      [sktime/forecasting/anomaly_detector.py]

    The detector compares observed values with the prediction interval of a
    forecaster.  The development follows the Python module:

    - [Num]      float64 cells.  A cell is a primitive binary64 float of the
                 kernel: sums, differences, quotients, absolute values and
                 comparisons are the IEEE 754 operations, with rounding to
                 nearest even, overflow to the infinities, gradual underflow,
                 signed zeros and NaN.  [np.exp] is the routine of the
                 platform: its values at NaN, the zeros and the infinities are
                 fixed, the others are a parameter.
    - [Frame]    a pandas DataFrame: a row index, column labels, both in
                 their order, and a value per cell; label alignment for
                 arithmetic, identical labels for comparisons.
    - [Py]       the object store, exceptions and the collaborating
                 [BaseForecaster] objects.
    - [Detector] [IntervalBasedAnomalyDetector] itself. *)

From Stdlib Require Import ZArith Floats.
From stdpp Require Import gmap strings.

(** ** Float cells *)

Module Num.

(** [np.exp] on a finite argument other than zero.  The routine belongs to
    the platform and is not part of this module; it is taken as it comes. *)
Class Numpy : Type := {
  exp_finite : float → float
}.

(** [np.exp]: NaN for NaN, 1 for both zeros, 0 for [-inf] and [+inf] for
    [+inf], as IEEE 754 and C fix them; the routine elsewhere. *)
Definition exp `{Numpy} (a : float) : float :=
  if is_nan a then nan
  else if is_zero a then 1%float
  else if is_infinity a then (if (a <? 0)%float then 0%float else infinity)
  else exp_finite a.

End Num.

Export Num(Numpy, exp_finite).

(** ** DataFrames *)

(** What pandas decides and this module does not see: the order in which an
    outer join lists the labels of its two operands, and the text of the
    error of a comparison between frames with other labels. *)
Class Pandas : Type := {
  outer : ∀ (C : Type), EqDecision C → list C → list C → list C;
  elem_of_outer : ∀ (C : Type) (dec : EqDecision C) (l k : list C) (x : C),
    x ∈ outer C dec l k ↔ x ∈ l ∨ x ∈ k;
  compare_error : string
}.

Module Frame.

(** A frame has a row index (time points), column labels and one value per
    (row, column).  [values] is only read at labels of the frame. *)
Record frame (C : Type) (A : Type) : Type := mk {
  index : list Z;
  columns : list C;
  values : Z → C → A
}.
Arguments mk {C A} index columns values.
Arguments index {C A} f.
Arguments columns {C A} f.
Arguments values {C A} f i c.

Section ops.
Context {C : Type} `{EqDecision C}.

Definition has_label {A} (F : frame C A) (i : Z) (c : C) : Prop :=
  i ∈ index F ∧ c ∈ columns F.

(** [F.loc[i, c]], [None] when the label is not in the frame. *)
Definition cell {A} (F : frame C A) (i : Z) (c : C) : option A :=
  if decide (has_label F i c) then Some (values F i c) else None.

(** A unary ufunc or an operation with a scalar keeps the labels. *)
Definition map {A B} (f : A → B) (F : frame C A) : frame C B :=
  mk (index F) (columns F) (λ i c, f (values F i c)).

(** Arithmetic between two frames aligns them on the outer join of their
    labels; a cell missing on either side is NaN. *)
Definition arith `{Pandas} (f : float → float → float) (F G : frame C float)
    : frame C float :=
  mk (outer Z _ (index F) (index G)) (outer C _ (columns F) (columns G))
     (λ i c, if decide (has_label F i c ∧ has_label G i c)
             then f (values F i c) (values G i c) else nan).

(** The same row labels and the same column labels, in the same order. *)
Definition same_labels {A B} (F : frame C A) (G : frame C B) : Prop :=
  index F = index G ∧ columns F = columns G.

(** A comparison between two frames needs identical labels; pandas raises
    [ValueError] otherwise, here [None]. *)
Definition compare (f : float → float → bool) (F G : frame C float)
    : option (frame C bool) :=
  if decide (same_labels F G)
  then Some (mk (index F) (columns F) (λ i c, f (values F i c) (values G i c)))
  else None.

(** [F | G] on boolean frames produced from the same frame. *)
Definition or (F G : frame C bool) : frame C bool :=
  mk (index F) (columns F) (λ i c, values F i c || values G i c).

(** [F.astype(int)] *)
Definition astype_int (F : frame C bool) : frame C Z :=
  map (λ b : bool, if b then 1%Z else 0%Z) F.

(** [pd.DataFrame(F, index=idx)]: the rows of [F] at [idx], NaN rows for
    the labels of [idx] that [F] does not have. *)
Definition reindex (idx : list Z) (F : frame C float) : frame C float :=
  mk idx (columns F)
     (λ i c, if decide (i ∈ index F) then values F i c else nan).

End ops.

(** [F.xs(key, level=-1, axis=1)] on two-level columns: the columns whose
    last level is [key], in their order and with that level dropped;
    [KeyError] ([None]) when no column has it. *)
Definition xs {A} (key : string) (F : frame (string * string) A)
    : option (frame string A) :=
  let cols : list string :=
    fst <$> filter (λ ck : string * string, ck.2 = key) (columns F) in
  if decide (cols = []) then None
  else Some (mk (index F) cols (λ i c, values F i (c, key))).

End Frame.

Abbreviation DataFrame := (Frame.frame string float).

(** ** Objects, exceptions and the forecaster collaborator *)

Module Py.

Inductive exn : Type :=
  | ValueError (msg : string)
  | KeyError (key : string)
  | AttributeError (name : string)
  | NotFittedError
  | ForecasterError (code : nat).

(** Column labels of the frame [predict_interval] returns, as the two [xs]
    calls of the detector read them: the channel and, last, the bound,
    ["lower"] or ["upper"]. *)
Abbreviation IntervalFrame := (Frame.frame (string * string) float).

(** What a concrete forecaster class computes: the hyper-parameters of an
    instance, the state fitting produces, and the interval forecast.  Both
    operations may raise. *)
Class ForecasterModel : Type := {
  params : Type;
  fitted : Type;
  fit_model : params → DataFrame → exn + fitted;
  interval_model : params → fitted → list Z → float → exn + IntervalFrame
}.

Abbreviation loc := positive.

(** Attributes of an [IntervalBasedAnomalyDetector] instance;
    [forecaster_] is [None] until [_fit] assigns it. *)
Record detector : Type := mkDetector {
  forecaster : loc;
  coverage : float;
  forecaster_ : option loc;
  _is_fitted : bool
}.

Section objects.
Context `{ForecasterModel}.

(** The objects this module meets: [BaseForecaster] instances with their
    hyper-parameters, their ["capability:pred_int"] tag and their fitted
    state; detectors; and any other object, with what it would answer if
    asked for the tag. *)
Inductive pyobj : Type :=
  | Forecaster (p : params) (pred_int : bool) (state : option fitted)
  | Detector (d : detector)
  | Other (pred_int : bool).

Abbreviation heap := (gmap loc pyobj).

(** A method call: it reads and writes the object store, and returns or
    raises.  Writes made before a raise stay. *)
Definition M (A : Type) : Type := heap → (exn + A) * heap.

Definition ret {A} (a : A) : M A := λ h, (inr a, h).
Definition raise {A} (e : exn) : M A := λ h, (inl e, h).
Definition bind {A B} (m : M A) (k : A → M B) : M B :=
  λ h, match m h with
       | (inr a, h') => k a h'
       | (inl e, h') => (inl e, h')
       end.

Definition alloc (o : pyobj) : M loc :=
  λ h, let l := fresh (dom h) in (inr l, <[l := o]> h).
Definition store (l : loc) (o : pyobj) : M unit :=
  λ h, (inr tt, <[l := o]> h).

(** [isinstance(obj, BaseForecaster)] *)
Definition isinstance_BaseForecaster (l : loc) : M bool :=
  λ h, (inr match h !! l with Some (Forecaster _ _ _) => true | _ => false end, h).

(** Modelled from the spec: the capability query of the collaborator,
    [get_tag("capability:pred_int")], which is not part of this module.
    "a discoverable capability flag on the collaborator": forecasters carry
    the flag; the detector asks no other object than the one that passed the
    type check. *)
Definition get_tag_pred_int (l : loc) : M bool :=
  λ h, match h !! l with
       | Some (Forecaster _ t _) | Some (Other t) => (inr t, h)
       | _ => (inl (AttributeError "get_tag"), h)
       end.

Definition get_detector (self : loc) : M detector :=
  λ h, match h !! self with
       | Some (Detector d) => (inr d, h)
       | _ => (inl (AttributeError "self"), h)
       end.

(** Modelled from the spec: [BaseForecaster.clone], which is not part of
    this module.  "clone() -> IndependentInstance": a new object of the same
    class with the same hyper-parameters and tags, not fitted. *)
Definition clone (l : loc) : M loc :=
  λ h, match h !! l with
       | Some (Forecaster p t _) => alloc (Forecaster p t None) h
       | _ => (inl (AttributeError "clone"), h)
       end.

(** Modelled from the spec: [BaseForecaster.fit], which is not part of this
    module.  "fit(TimeSeries) -> FittedInstance": the object itself becomes
    fitted; a failure of the forecaster surfaces unchanged. *)
Definition forecaster_fit (l : loc) (X : DataFrame) : M unit :=
  λ h, match h !! l with
       | Some (Forecaster p t _) =>
           match fit_model p X with
           | inr s => store l (Forecaster p t (Some s)) h
           | inl e => (inl e, h)
           end
       | _ => (inl (AttributeError "fit"), h)
       end.

(** Modelled from the spec: [BaseForecaster.predict_interval], which is not
    part of this module.  "predict_interval(time_indices, coverage) ->
    (lower, upper)" keyed by time index and channel; it reads the fitted
    state and needs one. *)
Definition predict_interval (l : loc) (fh : list Z) (cov : float)
    : M IntervalFrame :=
  λ h, match h !! l with
       | Some (Forecaster p _ (Some s)) => (interval_model p s fh cov, h)
       | Some (Forecaster _ _ None) => (inl NotFittedError, h)
       | _ => (inl (AttributeError "predict_interval"), h)
       end.

End objects.

End Py.

(** ** The detector *)

Module Detector.
Import Py.

Section detector.
Context `{ForecasterModel} `{Pandas} `{Numpy}.

#[local] Instance M_ret : MRet M := @ret _.
#[local] Instance M_bind : MBind M := λ A B k m, bind m k.

Definition xs_or_raise (key : string) (F : IntervalFrame) : M DataFrame :=
  match Frame.xs key F with
  | Some G => mret G
  | None => raise (KeyError key)
  end.

(** A comparison of two frames, with the error pandas raises when their
    labels are not identical. *)
Definition compare_or_raise (f : float → float → bool) (F G : DataFrame)
    : M (Frame.frame string bool) :=
  match Frame.compare f F G with
  | Some B => mret B
  | None => raise (ValueError compare_error)
  end.

(** [self.forecaster_], an [AttributeError] before [_fit] has set it. *)
Definition get_forecaster_ (self : loc) : M loc :=
  d ← get_detector self;
  match forecaster_ d with
  | Some f => mret f
  | None => raise (AttributeError "forecaster_")
  end.

(** [self.forecaster_ = f] *)
Definition set_forecaster_ (self : loc) (f : loc) : M unit :=
  d ← get_detector self;
  store self (Detector (mkDetector (forecaster d) (coverage d) (Some f) (_is_fitted d))).

Definition set_is_fitted (self : loc) (b : bool) : M unit :=
  d ← get_detector self;
  store self (Detector (mkDetector (forecaster d) (coverage d) (forecaster_ d) b)).

(** [__init__(self, forecaster, coverage)]: the three checks in the order
    of the source, then the two attributes.  [super().__init__()] leaves
    the instance not fitted. *)
Definition __init__ (forecaster : loc) (coverage : float) : M detector :=
  b ← isinstance_BaseForecaster forecaster;
  if negb b then raise (ValueError "forecaster must be a BaseForecaster instance")
  else
    t ← get_tag_pred_int forecaster;
    if negb t then raise (ValueError "forecaster must support prediction intervals")
    else if negb ((0 <? coverage)%float && (coverage <? 1)%float)
    then raise (ValueError "coverage must be between 0 and 1")
    else mret (mkDetector forecaster coverage None false).

(** [IntervalBasedAnomalyDetector(forecaster, coverage)]: the instance
    exists for the caller only when [__init__] returns. *)
Definition new (forecaster : loc) (coverage : float) : M loc :=
  d ← __init__ forecaster coverage;
  alloc (Detector d).

Definition _fit (self : loc) (X : DataFrame) : M loc :=
  d ← get_detector self;
  c ← clone (forecaster d);
  _ ← set_forecaster_ self c;
  f ← get_forecaster_ self;
  _ ← forecaster_fit f X;
  mret self.

(** [self.coverage] *)
Definition get_coverage (self : loc) : M float :=
  d ← get_detector self;
  mret (coverage d).

(** Lines 87-92 and 114-119, the same in both prediction methods: the
    interval query on the index of [X] and the two bounds. *)
Definition bounds (self : loc) (X : DataFrame) : M (DataFrame * DataFrame) :=
  let fh := Frame.index X in
  f ← get_forecaster_ self;
  cov ← get_coverage self;
  pred_int ← predict_interval f fh cov;
  lower ← xs_or_raise "lower" pred_int;
  upper ← xs_or_raise "upper" pred_int;
  mret (lower, upper).

Definition _predict (self : loc) (X : DataFrame) : M (Frame.frame string Z) :=
  '(lower, upper) ← bounds self X;
  below ← compare_or_raise (λ x l, (x <? l)%float) X lower;
  above ← compare_or_raise (λ x u, (u <? x)%float) X upper;
  let anomalies := Frame.or below above in
  mret (Frame.astype_int anomalies).

Definition _predict_proba (self : loc) (X : DataFrame) : M DataFrame :=
  '(lower, upper) ← bounds self X;
  let center := Frame.map (λ s, s / 2)%float (Frame.arith PrimFloat.add upper lower) in
  let width := Frame.arith PrimFloat.sub upper lower in
  let z_scores :=
    Frame.arith PrimFloat.div
      (Frame.map PrimFloat.abs (Frame.arith PrimFloat.sub X center))
      (Frame.map (λ w, w / 2)%float width) in
  let probs :=
    Frame.map (λ z, 1 / (1 + Num.exp (- (z - 1))))%float z_scores in
  mret (Frame.reindex (Frame.index X) probs).

(** Modelled from the spec: the public [fit] of [BaseClassifier], which is
    not part of this module.  "detector transitions to a fitted state": it
    runs [_fit] and then marks the instance as fitted. *)
Definition fit (self : loc) (X : DataFrame) : M loc :=
  _ ← _fit self X;
  _ ← set_is_fitted self true;
  mret self.

(** Modelled from the spec: the fitted-state check of [BaseClassifier], which
    is not part of this module.  "all prediction operations require this
    state and fail with a NotFittedError if invoked beforehand." *)
Definition check_is_fitted (self : loc) : M unit :=
  d ← get_detector self;
  if _is_fitted d then mret tt else raise NotFittedError.

(** Modelled from the spec: the public [predict] of [BaseClassifier], which
    is not part of this module: the check, then [_predict]. *)
Definition predict (self : loc) (X : DataFrame) : M (Frame.frame string Z) :=
  _ ← check_is_fitted self;
  _predict self X.

(** Modelled from the spec: the public [predict_proba] of [BaseClassifier],
    which is not part of this module: the check, then [_predict_proba]. *)
Definition predict_proba (self : loc) (X : DataFrame) : M DataFrame :=
  _ ← check_is_fitted self;
  _predict_proba self X.

End detector.

End Detector.

(** ** What the properties speak of *)

Import Py Detector.

(** What lines 95-98 compute in one cell. *)
Definition label_of (v l u : float) : Z :=
  if (v <? l)%float || (u <? v)%float then 1%Z else 0%Z.

(** What lines 122-127 compute in one cell. *)
Definition score_of `{Numpy} (v l u : float) : float :=
  let center := ((u + l) / 2)%float in
  let width := (u - l)%float in
  let z := (abs (v - center) / (width / 2))%float in
  (1 / (1 + Num.exp (- (z - 1))))%float.

Section vocabulary.
Context `{ForecasterModel}.

(** The detector at [self] is fitted and its forecaster answers the
    interval query for the index of [X] with [lower] and [upper]. *)
Definition interval_source_returns (h : gmap loc pyobj) (self : loc)
    (X lower upper : DataFrame) : Prop :=
  ∃ d f p t s pred_int,
    h !! self = Some (Detector d) ∧
    forecaster_ d = Some f ∧
    h !! f = Some (Forecaster p t (Some s)) ∧
    interval_model p s (Frame.index X) (coverage d) = inr pred_int ∧
    Frame.xs "lower" pred_int = Some lower ∧
    Frame.xs "upper" pred_int = Some upper.

(** [isinstance(obj, BaseForecaster)] holds of the object at [l]. *)
Definition is_forecaster (h : gmap loc pyobj) (l : loc) : Prop :=
  ∃ p t s, h !! l = Some (Forecaster p t s).

(** The object at [l] answers the ["capability:pred_int"] tag with true. *)
Definition declares_pred_int (h : gmap loc pyobj) (l : loc) : Prop :=
  get_tag_pred_int l h = (inr true, h).

(** [0 < coverage < 1] *)
Definition valid_coverage (cov : float) : Prop :=
  (0 <? cov)%float = true ∧ (cov <? 1)%float = true.

End vocabulary.

(** ** Test parameters *)

(** The values of a parameter dictionary: an object or a float. *)
Inductive pyval : Type :=
  | Ref (l : loc)
  | Float (x : float).

Section test_params.
Context `{ForecasterModel}.

(** [get_test_params(cls, parameter_set)]: a new [NaiveForecaster] with the
    hyper-parameters [strategy="mean"], given here as [naive_mean] since the
    class is not part of this module, and the coverage [0.9], the float
    nearest to it.  The tag of the new forecaster is the one the comment of
    the source states, "supports prediction intervals".  [parameter_set] is
    not read. *)
Definition get_test_params (naive_mean : params) (parameter_set : string)
    : M (gmap string pyval) :=
  bind (alloc (Forecaster naive_mean true None)) (λ f,
    ret (<["coverage" := Float 0x1.ccccccccccccdp-1%float]>
         (<["forecaster" := Ref f]> (∅ : gmap string pyval)))).

End test_params.

(** ** Concrete libraries, forecasters and stores *)

(** A pandas and a numpy to run the examples with.  The join lists the
    labels that only the left operand has and then those of the right one;
    the error text is that of pandas 2.  For [np.exp] on finite non-zero
    arguments the examples take no routine at all: the entry is NaN, so that
    an example whose result went through the routine would show NaN.  The
    properties themselves are proved for every pandas and every numpy. *)
Module Lib.

#[export] Instance pandas : Pandas := {|
  outer := λ C dec l k, @list_union C dec l k;
  elem_of_outer := λ C dec l k x, @list_elem_of_union C dec l k x;
  compare_error :=
    "Can only compare identically-labeled (both index and columns) DataFrame objects"
|}.

#[export] Instance numpy : Numpy := {|
  exp_finite := λ _, nan
|}.

End Lib.

(** A forecaster class whose interval is the same band [lo, hi] at every
    requested time point of the single channel ["y"]; fitting keeps the
    history. *)
Module Band.

Definition interval (p : float * float) (fh : list Z) : IntervalFrame :=
  Frame.mk fh [("y", "lower"); ("y", "upper")]
    (λ _ ck, if decide (ck.2 = "lower") then p.1 else p.2).

#[export] Instance model : ForecasterModel := {|
  params := float * float;
  fitted := DataFrame;
  fit_model := λ _ X, inr X;
  interval_model := λ p _ fh _, inr (interval p fh)
|}.

(** One observation [v] of channel ["y"] at time 0. *)
Definition query (v : float) : DataFrame :=
  Frame.mk [0%Z] ["y"] (λ _ _, v).

Definition bound (b : float) : DataFrame :=
  Frame.mk [0%Z] ["y"] (λ _ _, b).

(** The coverage 0.95, the float nearest to it. *)
Definition cov : float := 0x1.e666666666666p-1%float.

(** Template at 1, a detector at 2 fitted on [query 10], its clone at 3. *)
Definition world (lo hi : float) : gmap loc pyobj :=
  <[3%positive := Forecaster (lo, hi) true (Some (query 10))]>
  (<[2%positive := Detector (mkDetector 1 cov (Some 3%positive) true)]>
  (<[1%positive := Forecaster (lo, hi) true None]> ∅)).

(** The template alone, before any detector is built from it. *)
Definition shop (lo hi : float) : gmap loc pyobj :=
  <[1%positive := Forecaster (lo, hi) true None]> ∅.

(** The template at 1 and a detector built from it at 2, not fitted. *)
Definition built (lo hi : float) : gmap loc pyobj :=
  <[2%positive := Detector (mkDetector 1 cov None false)]>
  (shop lo hi).

(** An object that is not a forecaster and answers the tag with true. *)
Definition stranger : gmap loc pyobj :=
  <[1%positive := Other true]> ∅.

End Band.

(** ** Further stores and a forecaster that can fail *)

Module Scenes.

(** One observation of another channel, ["z"], at time 0. *)
Definition other_channel (v : float) : DataFrame :=
  Frame.mk [0%Z] ["z"] (λ _ _, v).

(** Two observations at time 0: [v] of channel ["y"] and [w] of a second
    channel, ["z"]. *)
Definition two_channels (v w : float) : DataFrame :=
  Frame.mk [0%Z] ["y"; "z"] (λ _ c, if decide (c = "y") then v else w).

(** A forecaster without the capability tag, alone. *)
Definition untagged : gmap loc pyobj :=
  <[1%positive := @Forecaster Band.model (8%float, 12%float) false None]> ∅.

(** Two detectors on the template at 1: the one at 2 fitted, with its clone
    at 3, the one at 4 built and not fitted. *)
Definition pair (lo hi : float) : gmap loc pyobj :=
  <[4%positive := Detector (mkDetector 1 0.5%float None false)]>
  (Band.world lo hi).

End Scenes.

(** A forecaster class that fails on demand: at fitting, at the interval
    query, or by leaving one bound out of the frame it returns. *)
Module Faulty.

Inductive mode : Type :=
  | FitRaises
  | IntervalRaises
  | NoLower
  | NoUpper.

Definition only (key : string) (fh : list Z) : IntervalFrame :=
  Frame.mk fh [("y", key)] (λ _ _, 0%float).

#[export] Instance model : ForecasterModel := {|
  params := mode;
  fitted := unit;
  fit_model := λ m _,
    match m with FitRaises => inl (ForecasterError 1) | _ => inr tt end;
  interval_model := λ m _ fh _,
    match m with
    | NoLower => inr (only "upper" fh)
    | NoUpper => inr (only "lower" fh)
    | _ => inl (ForecasterError 2)
    end
|}.

(** A detector at 2 with a fitted forecaster of mode [m] at 3. *)
Definition world (m : mode) : gmap loc pyobj :=
  <[3%positive := Forecaster m true (Some tt)]>
  (<[2%positive := Detector (mkDetector 1 Band.cov (Some 3%positive) true)]>
  (<[1%positive := Forecaster m true None]> ∅)).

End Faulty.

(** * Properties *)

(** ** Float cells *)

Section float_facts.
Local Open Scope float_scope.

Lemma Prim2SF_nan : Prim2SF nan = S754_nan.
Proof. reflexivity. Qed.

Lemma is_nan_eq (x : float) : Prim2SF x = S754_nan → x = nan.
Proof. intros Hx. apply Prim2SF_inj. rewrite Hx. reflexivity. Qed.

(** Comparisons with NaN are false. *)
Lemma ltb_nan_l (x : float) : (nan <? x) = false.
Proof. rewrite ltb_spec, Prim2SF_nan. reflexivity. Qed.

Lemma ltb_nan_r (x : float) : (x <? nan) = false.
Proof. rewrite ltb_spec, Prim2SF_nan. destruct (Prim2SF x); reflexivity. Qed.

(** The order of the specification: [<] is irreflexive, and numerically
    equal floats (among them the two zeros) compare alike with any third. *)
Lemma SFcompare_refl_not_lt (a : spec_float) : SFltb a a = false.
Proof.
  unfold SFltb. destruct a as [s|s| |s m e]; simpl; try reflexivity.
  - destruct s; reflexivity.
  - destruct s; rewrite Z.compare_refl, Pos.compare_cont_refl; reflexivity.
Qed.

Lemma SFeqb_cases (a b : spec_float) :
  SFeqb a b = true → a = b ∨ ∃ s s', a = S754_zero s ∧ b = S754_zero s'.
Proof.
  unfold SFeqb.
  destruct a as [s|s| |s m e], b as [s'|s'| |s' m' e']; simpl;
    try discriminate; try (destruct s; discriminate);
    try (destruct s'; discriminate).
  - intros _. right. eauto.
  - destruct s, s'; try discriminate; intros _; left; reflexivity.
  - intros Hc. left.
    destruct s, s'; try discriminate;
      destruct (Z.compare e e') eqn:He; try discriminate;
      apply Z.compare_eq in He; subst e';
      destruct (Pos.compare_cont Eq m m') eqn:Hm; try discriminate;
      apply Pos.compare_eq in Hm; subst m'; reflexivity.
Qed.

Lemma SFcompare_zero_r (c : spec_float) (s s' : bool) :
  SFcompare c (S754_zero s) = SFcompare c (S754_zero s').
Proof. destruct c; reflexivity. Qed.

Lemma SFcompare_zero_l (c : spec_float) (s s' : bool) :
  SFcompare (S754_zero s) c = SFcompare (S754_zero s') c.
Proof. destruct c; reflexivity. Qed.

Lemma ltb_irrefl (x : float) : (x <? x) = false.
Proof. rewrite ltb_spec. apply SFcompare_refl_not_lt. Qed.

(** [v == l] makes [v] and [l] interchangeable in a comparison. *)
Lemma eqb_ltb_r (u v l : float) : (v =? l) = true → (u <? v) = (u <? l).
Proof.
  rewrite FloatAxioms.eqb_spec, !FloatAxioms.ltb_spec. intros [He | (s & s' & Hv & Hl)]%SFeqb_cases.
  - rewrite He. reflexivity.
  - unfold SFltb. rewrite Hv, Hl, (SFcompare_zero_r _ s s'). reflexivity.
Qed.

Lemma eqb_ltb_l (u v l : float) : (v =? l) = true → (v <? u) = (l <? u).
Proof.
  rewrite FloatAxioms.eqb_spec, !FloatAxioms.ltb_spec. intros [He | (s & s' & Hv & Hl)]%SFeqb_cases.
  - rewrite He. reflexivity.
  - unfold SFltb. rewrite Hv, Hl, (SFcompare_zero_l _ s s'). reflexivity.
Qed.

(** NaN goes through every operation of the score. *)
Lemma add_nan_l (x : float) : nan + x = nan.
Proof. apply Prim2SF_inj. rewrite add_spec, Prim2SF_nan. reflexivity. Qed.

Lemma add_nan_r (x : float) : x + nan = nan.
Proof.
  apply Prim2SF_inj. rewrite add_spec, Prim2SF_nan.
  destruct (Prim2SF x); reflexivity.
Qed.

Lemma sub_nan_l (x : float) : nan - x = nan.
Proof. apply Prim2SF_inj. rewrite sub_spec, Prim2SF_nan. reflexivity. Qed.

Lemma sub_nan_r (x : float) : x - nan = nan.
Proof.
  apply Prim2SF_inj. rewrite sub_spec, Prim2SF_nan.
  destruct (Prim2SF x); reflexivity.
Qed.

Lemma div_nan_l (x : float) : nan / x = nan.
Proof. apply Prim2SF_inj. rewrite div_spec, Prim2SF_nan. reflexivity. Qed.

Lemma div_nan_r (x : float) : x / nan = nan.
Proof.
  apply Prim2SF_inj. rewrite div_spec, Prim2SF_nan.
  destruct (Prim2SF x); reflexivity.
Qed.

End float_facts.

(** ** Order of float cells *)

Section order_facts.
Local Open Scope float_scope.

Lemma SFcompare_antisym (a b : spec_float) :
  SFcompare b a = option_map CompOpp (SFcompare a b).
Proof.
  destruct a as [sa|sa| |sa ma ea], b as [sb|sb| |sb mb eb];
    try reflexivity; try (destruct sa, sb; reflexivity); try (destruct sa; reflexivity);
    try (destruct sb; reflexivity).
  simpl. destruct sa, sb; try reflexivity.
  - rewrite (Z.compare_antisym ea eb). destruct (ea ?= eb)%Z; simpl; try reflexivity.
    rewrite (Pos.compare_cont_antisym _ _ Eq). simpl.
    destruct (Pos.compare_cont Eq ma mb); reflexivity.
  - rewrite (Z.compare_antisym ea eb). destruct (ea ?= eb)%Z; simpl; try reflexivity.
    rewrite (Pos.compare_cont_antisym _ _ Eq). simpl.
    destruct (Pos.compare_cont Eq ma mb); reflexivity.
Qed.

Lemma leb_not_ltb (l v : float) : (l <=? v) = true → (v <? l) = false.
Proof.
  rewrite FloatAxioms.leb_spec, FloatAxioms.ltb_spec. unfold SFleb, SFltb.
  rewrite (SFcompare_antisym (Prim2SF l) (Prim2SF v)).
  destruct (SFcompare (Prim2SF l) (Prim2SF v)) as [[]|]; simpl; congruence.
Qed.

End order_facts.

(** ** Infinities, zeros and the order of three floats *)

Section special_facts.
Context `{Numpy}.
Local Open Scope float_scope.

Lemma SFcompare_trans_lt (a b c : spec_float) :
  SFcompare a b = Some Lt → SFcompare b c = Some Lt → SFcompare a c = Some Lt.
Proof.
  destruct a as [sa|sa| |sa ma ea], b as [sb|sb| |sb mb eb],
    c as [sc|sc| |sc mc ec]; simpl;
    try discriminate; try (destruct sa; discriminate);
    try (destruct sb; discriminate); try (destruct sc; discriminate);
    try (destruct sa, sb; discriminate); try (destruct sb, sc; discriminate);
    try (destruct sa, sc; (discriminate || reflexivity));
    try (destruct sa, sb, sc; (discriminate || reflexivity)).
  destruct sa, sb, sc; try discriminate; try reflexivity.
  - intros Hab Hbc. f_equal.
    destruct (Z.compare_spec ea eb), (Z.compare_spec eb ec),
      (Z.compare_spec ea ec); try discriminate; try lia; try reflexivity.
    subst. change (Pos.compare_cont Eq) with Pos.compare in *.
    destruct (Pos.compare_spec ma mb), (Pos.compare_spec mb mc),
      (Pos.compare_spec ma mc); try discriminate; try lia; reflexivity.
  - intros Hab Hbc. f_equal.
    destruct (Z.compare_spec ea eb), (Z.compare_spec eb ec),
      (Z.compare_spec ea ec); try discriminate; try lia; try reflexivity.
    subst. change (Pos.compare_cont Eq) with Pos.compare in *.
    destruct (Pos.compare_spec ma mb), (Pos.compare_spec mb mc),
      (Pos.compare_spec ma mc); try discriminate; try lia; reflexivity.
Qed.

Lemma SFcompare_None (a b : spec_float) :
  SFcompare a b = None → a = S754_nan ∨ b = S754_nan.
Proof.
  destruct a as [sa|sa| |sa ma ea], b as [sb|sb| |sb mb eb]; simpl; auto;
    try discriminate; try (destruct sa; discriminate);
    try (destruct sb; discriminate); try (destruct sa, sb; discriminate).
Qed.

Lemma SFcompare_nan_r (a : spec_float) : SFcompare a S754_nan = None.
Proof. destruct a as [[]|[]| |[] ? ?]; reflexivity. Qed.

(** Of two bounds in the wrong order, every float that is not NaN is below
    the lower or above the upper one. *)
Lemma ltb_cotrans (u l v : float) :
  (u <? l) = true → is_nan v = false → (v <? l) = true ∨ (u <? v) = true.
Proof.
  intros Hul Hv.
  destruct (v <? l) eqn:Hvl; [by left|]. right.
  destruct (v =? l) eqn:Heq; [by rewrite (eqb_ltb_r u v l Heq)|].
  revert Hul Hv Hvl Heq. unfold is_nan.
  rewrite !FloatAxioms.ltb_spec, !FloatAxioms.eqb_spec. unfold SFltb, SFeqb.
  intros Hul Hv Hvl Heq.
  destruct (SFcompare (Prim2SF u) (Prim2SF l)) as [[]|] eqn:Hab; try discriminate.
  destruct (SFcompare (Prim2SF v) (Prim2SF l)) as [[]|] eqn:Hcb; try discriminate.
  - rewrite SFcompare_antisym in Hcb.
    destruct (SFcompare (Prim2SF l) (Prim2SF v)) as [[]|] eqn:Hbc; try discriminate.
    by rewrite (SFcompare_trans_lt _ _ _ Hab Hbc).
  - apply SFcompare_None in Hcb as [Hn|Hn].
    + rewrite Hn in Hv. discriminate.
    + rewrite Hn, SFcompare_nan_r in Hab. discriminate.
Qed.

(** Two floats that are not NaN and not equal are in one of the two strict
    orders. *)
Lemma ltb_total (v b : float) :
  is_nan v = false → is_nan b = false → (v =? b) = false →
  (v <? b) = true ∨ (b <? v) = true.
Proof.
  unfold is_nan.
  rewrite !FloatAxioms.ltb_spec, !FloatAxioms.eqb_spec. unfold SFltb, SFeqb.
  intros Hv Hb Hne. rewrite (SFcompare_antisym (Prim2SF v) (Prim2SF b)).
  destruct (SFcompare (Prim2SF v) (Prim2SF b)) as [[]|] eqn:Hc; simpl; auto;
    try discriminate.
  apply SFcompare_None in Hc as [Hn|Hn].
  - rewrite Hn in Hv. discriminate.
  - rewrite Hn in Hb. discriminate.
Qed.

Lemma is_infinity_cases (c : float) :
  is_infinity c = true → c = infinity ∨ c = neg_infinity.
Proof.
  unfold is_infinity. rewrite FloatAxioms.eqb_spec, FloatAxioms.abs_spec.
  intros Hc.
  assert (Hsf : ∃ s, Prim2SF c = S754_infinity s).
  { destruct (Prim2SF c) as [[]|[]| |[] ? ?]; try discriminate Hc; eauto. }
  destruct Hsf as [[] Hs]; [right|left]; apply Prim2SF_inj; rewrite Hs; reflexivity.
Qed.

(** A float that is neither NaN nor infinite is a zero or a finite number. *)
Lemma finite_cases (v : float) :
  is_finite v = true →
  (∃ s, Prim2SF v = S754_zero s) ∨ (∃ s m e, Prim2SF v = S754_finite s m e).
Proof.
  unfold is_finite, is_nan, is_infinity.
  rewrite !FloatAxioms.eqb_spec, FloatAxioms.abs_spec.
  destruct (Prim2SF v) as [s|s| |s m e]; eauto.
  - destruct s; discriminate.
  - discriminate.
Qed.

Lemma sub_infinity_r (v : float) :
  is_finite v = true →
  v - infinity = neg_infinity ∧ v - neg_infinity = infinity.
Proof.
  intros Hf.
  split; apply Prim2SF_inj; rewrite FloatAxioms.sub_spec;
    destruct (finite_cases v Hf) as [[s ->]|(s & m & e & ->)]; reflexivity.
Qed.

Lemma sub_infinity_l (c : float) :
  is_finite c = true →
  infinity - c = infinity ∧ neg_infinity - c = neg_infinity.
Proof.
  intros Hf.
  split; apply Prim2SF_inj; rewrite FloatAxioms.sub_spec;
    destruct (finite_cases c Hf) as [[s ->]|(s & m & e & ->)]; reflexivity.
Qed.

Lemma ltb_infinity (x : float) :
  is_finite x = true → (x <? infinity) = true ∧ (neg_infinity <? x) = true.
Proof.
  intros Hf. rewrite !FloatAxioms.ltb_spec.
  destruct (finite_cases x Hf) as [[s ->]|(s & m & e & ->)];
    split; reflexivity.
Qed.

(** A positive float is [+inf] or a positive finite number. *)
Lemma positive_cases (d : float) :
  (0 <? d) = true →
  Prim2SF d = S754_infinity false ∨ ∃ m e, Prim2SF d = S754_finite false m e.
Proof.
  rewrite FloatAxioms.ltb_spec.
  destruct (Prim2SF d) as [[]|[]| |[] m e]; try discriminate; eauto.
Qed.

Lemma div_infinity_l (w : float) :
  (0 <? w) = true → is_infinity w = false → infinity / w = infinity.
Proof.
  intros Hpos Hi. apply Prim2SF_inj. rewrite FloatAxioms.div_spec.
  revert Hpos Hi. unfold is_infinity.
  rewrite FloatAxioms.ltb_spec, FloatAxioms.eqb_spec, FloatAxioms.abs_spec.
  destruct (Prim2SF w) as [[]|[]| |[] m e]; try discriminate; reflexivity.
Qed.

(** Division by the two zeros. *)
Lemma div_positive_zero (d : float) :
  (0 <? d) = true → d / 0 = infinity ∧ d / neg_zero = neg_infinity.
Proof.
  intros Hd.
  split; apply Prim2SF_inj; rewrite FloatAxioms.div_spec;
    destruct (positive_cases d Hd) as [-> | (m & e & ->)]; reflexivity.
Qed.

Lemma div_zero_zero (d : float) :
  (d =? 0) = true → d / 0 = nan ∧ d / neg_zero = nan.
Proof.
  rewrite FloatAxioms.eqb_spec. intros Hd.
  split; apply Prim2SF_inj; rewrite FloatAxioms.div_spec;
    destruct (Prim2SF d) as [[]|[]| |[] m e]; try discriminate; reflexivity.
Qed.

Lemma SFsub_diag (s : bool) (m : positive) (e : Z) :
  SFsub prec emax (S754_finite s m e) (S754_finite s m e) = S754_zero false.
Proof.
  unfold SFsub. rewrite Z.min_id.
  unfold shl_align. rewrite !Z.sub_diag. reflexivity.
Qed.

(** A finite float minus itself is [+0.0]. *)
Lemma sub_diag (v : float) : is_finite v = true → v - v = 0.
Proof.
  intros Hf. apply Prim2SF_inj. rewrite FloatAxioms.sub_spec.
  destruct (finite_cases v Hf) as [[s ->]|(s & m & e & ->)].
  - destruct s; reflexivity.
  - apply SFsub_diag.
Qed.



(** The score where the distance is infinite and the half width is not. *)
Lemma score_of_infinite_distance (v l u : float) :
  abs (v - (u + l) / 2) = infinity →
  (0 <? (u - l) / 2) = true → is_infinity ((u - l) / 2) = false →
  score_of v l u = 1.
Proof.
  intros Hd Hpos Hfin. unfold score_of. rewrite Hd.
  rewrite (div_infinity_l _ Hpos Hfin). reflexivity.
Qed.

End special_facts.

(** ** Cells of derived frames *)

Section frame_facts.
Context {C : Type} `{EqDecision C} `{Pandas}.

Lemma cell_Some {A} (F : Frame.frame C A) i c a :
  Frame.cell F i c = Some a ↔ Frame.has_label F i c ∧ Frame.values F i c = a.
Proof.
  unfold Frame.cell. destruct (decide (Frame.has_label F i c)); split.
  - intros [= <-]. done.
  - intros [_ <-]. done.
  - discriminate.
  - intros [? _]. done.
Qed.

Lemma cell_map {A B} (f : A → B) (F : Frame.frame C A) i c :
  Frame.cell (Frame.map f F) i c = f <$> Frame.cell F i c.
Proof.
  unfold Frame.cell, Frame.has_label. simpl.
  destruct (decide _); reflexivity.
Qed.

Lemma cell_arith f (F G : Frame.frame C float) i c a b :
  Frame.cell F i c = Some a → Frame.cell G i c = Some b →
  Frame.cell (Frame.arith f F G) i c = Some (f a b).
Proof.
  intros [HF <-]%cell_Some [HG <-]%cell_Some.
  apply cell_Some. split.
  - destruct HF, HG. split; simpl; apply elem_of_outer; auto.
  - simpl. destruct (decide _) as [|[]]; done.
Qed.

Lemma cell_compare f (F G : Frame.frame C float) B i c a :
  Frame.compare f F G = Some B →
  Frame.cell F i c = Some a →
  ∃ b, Frame.cell G i c = Some b ∧ Frame.cell B i c = Some (f a b).
Proof.
  unfold Frame.compare. destruct (decide _) as [[Hi Hc]|]; [|discriminate].
  intros [= <-] [[Hin Hcol] <-]%cell_Some.
  exists (Frame.values G i c). split; apply cell_Some; split; try done.
  split; [rewrite <- Hi | rewrite <- Hc]; done.
Qed.

Lemma compare_Some f (F G : Frame.frame C float) :
  Frame.same_labels F G → ∃ B, Frame.compare f F G = Some B ∧ Frame.same_labels B F.
Proof.
  intros Hl. unfold Frame.compare. destruct (decide _); [|done].
  eexists. split; [reflexivity|]. done.
Qed.

Lemma compare_None f (F G : Frame.frame C float) :
  ¬ Frame.same_labels F G → Frame.compare f F G = None.
Proof. intros Hl. unfold Frame.compare. destruct (decide _); done. Qed.

Lemma cell_or (P Q : Frame.frame C bool) i c a b :
  Frame.cell P i c = Some a → Frame.cell Q i c = Some b →
  Frame.cell (Frame.or P Q) i c = Some (a || b).
Proof.
  intros [HP <-]%cell_Some [HQ <-]%cell_Some. apply cell_Some. done.
Qed.

Lemma cell_reindex (F : Frame.frame C float) (idx : list Z) i c a :
  i ∈ idx → Frame.cell F i c = Some a →
  Frame.cell (Frame.reindex idx F) i c = Some a.
Proof.
  intros Hi [[HFi HFc] <-]%cell_Some. apply cell_Some. split; [done|].
  simpl. destruct (decide _); done.
Qed.

End frame_facts.

Lemma cell_xs {A} (key : string) (F : Frame.frame (string * string) A)
    (G : Frame.frame string A) (i : Z) (c : string) :
  Frame.xs key F = Some G → Frame.cell G i c = Frame.cell F i (c, key).
Proof.
  unfold Frame.xs. destruct (decide _); [discriminate|]. intros [= <-].
  unfold Frame.cell, Frame.has_label. simpl.
  destruct (decide (i ∈ _ ∧ c ∈ _)) as [[Hi Hc]|Hn];
    destruct (decide (i ∈ _ ∧ (c, key) ∈ _)) as [[Hi' Hc']|Hn']; try done.
  - exfalso. apply Hn'. split; [done|].
    apply list_elem_of_fmap in Hc as [[c' k] [-> [Hk Hin]%list_elem_of_filter]].
    simpl in *. by subst.
  - exfalso. apply Hn. split; [done|].
    apply list_elem_of_fmap. exists (c, key). split; [done|].
    apply list_elem_of_filter. done.
Qed.

(** ** Running the methods *)

(** Unfold the monad to the store-passing function it stands for. *)
Ltac run :=
  unfold mbind, mret, M_bind, M_ret, bind, ret, raise, store.

Section running.
Context `{ForecasterModel} `{Pandas} `{Numpy}.

Lemma bounds_returns h self X lower upper :
  interval_source_returns h self X lower upper →
  bounds self X h = (inr (lower, upper), h).
Proof.
  intros (d & f & p & t & s & PI & Hself & Hf_ & Hf & Hint & Hlo & Hup).
  unfold bounds, get_forecaster_, get_coverage, get_detector, predict_interval,
    xs_or_raise.
  run. repeat (first [rewrite Hself | rewrite Hf_ | rewrite Hf | rewrite Hint
                     | rewrite Hlo | rewrite Hup]; cbv beta iota).
  reflexivity.
Qed.

(** The interval query, branch by branch. *)
Lemma bounds_run h self X :
  bounds self X h =
    match h !! self with
    | Some (Detector d) =>
        match forecaster_ d with
        | Some f =>
            match h !! f with
            | Some (Forecaster p _ (Some s)) =>
                match interval_model p s (Frame.index X) (coverage d) with
                | inr pred_int =>
                    match Frame.xs "lower" pred_int with
                    | Some lower =>
                        match Frame.xs "upper" pred_int with
                        | Some upper => (inr (lower, upper), h)
                        | None => (inl (KeyError "upper"), h)
                        end
                    | None => (inl (KeyError "lower"), h)
                    end
                | inl e => (inl e, h)
                end
            | Some (Forecaster _ _ None) => (inl NotFittedError, h)
            | _ => (inl (AttributeError "predict_interval"), h)
            end
        | None => (inl (AttributeError "forecaster_"), h)
        end
    | _ => (inl (AttributeError "self"), h)
    end.
Proof.
  unfold bounds, get_forecaster_, get_coverage, get_detector, predict_interval,
    xs_or_raise. run.
  destruct (h !! self) as [[| d |]|] eqn:Hself; try reflexivity.
  cbv beta iota. destruct (forecaster_ d) as [f|]; [|reflexivity].
  cbv beta iota. rewrite Hself. cbv beta iota.
  destruct (h !! f) as [[p t [s|]| |]|]; try reflexivity.
  destruct (interval_model p s (Frame.index X) (coverage d)) as [e|PI];
    [reflexivity|]. cbv beta iota.
  destruct (Frame.xs "lower" PI); [|reflexivity]. cbv beta iota.
  destruct (Frame.xs "upper" PI); reflexivity.
Qed.

Lemma bounds_store h self X : (bounds self X h).2 = h.
Proof.
  rewrite bounds_run.
  repeat match goal with
         | |- context [match ?x with _ => _ end] => destruct x
         end; reflexivity.
Qed.

(** [_predict] once the bounds are known. *)
Lemma predict_run h self X :
  _predict self X h =
    match bounds self X h with
    | (inr (lower, upper), h') =>
        match Frame.compare (λ x l, (x <? l)%float) X lower with
        | Some below =>
            match Frame.compare (λ x u, (u <? x)%float) X upper with
            | Some above => (inr (Frame.astype_int (Frame.or below above)), h')
            | None => (inl (ValueError compare_error), h')
            end
        | None => (inl (ValueError compare_error), h')
        end
    | (inl e, h') => (inl e, h')
    end.
Proof.
  unfold _predict, compare_or_raise. run.
  destruct (bounds self X h) as [[e|[lower upper]] h']; [reflexivity|].
  destruct (Frame.compare _ X lower); [|reflexivity]. cbv beta iota.
  destruct (Frame.compare _ X upper); reflexivity.
Qed.

(** [_predict_proba] fails only where the interval query fails. *)
Lemma predict_proba_run h self X :
  match bounds self X h with
  | (inr _, h') => ∃ scores, _predict_proba self X h = (inr scores, h')
  | (inl e, h') => _predict_proba self X h = (inl e, h')
  end.
Proof.
  unfold _predict_proba. run.
  destruct (bounds self X h) as [[e|[lower upper]] h']; [reflexivity|].
  eexists. reflexivity.
Qed.

(** [_predict] returns when the bounds carry the labels of the query, and
    each cell of the result is the label of that cell.  The store is only
    read. *)
Lemma predict_cells h self X lower upper :
  interval_source_returns h self X lower upper →
  Frame.same_labels X lower → Frame.same_labels X upper →
  ∃ labels,
    _predict self X h = (inr labels, h) ∧
    Frame.same_labels labels X ∧
    ∀ i c v l u,
      Frame.cell X i c = Some v →
      Frame.cell lower i c = Some l →
      Frame.cell upper i c = Some u →
      Frame.cell labels i c = Some (label_of v l u).
Proof.
  intros Hsrc Hlo Hup.
  destruct (compare_Some (λ x l, (x <? l)%float) X lower Hlo)
    as (below & Hbelow & Hbl).
  destruct (compare_Some (λ x u, (u <? x)%float) X upper Hup)
    as (above & Habove & Hal).
  exists (Frame.astype_int (Frame.or below above)). split; [|split].
  - rewrite predict_run, (bounds_returns _ _ _ _ _ Hsrc), Hbelow, Habove.
    reflexivity.
  - destruct Hbl as [Hi Hc]. split; simpl; done.
  - intros i c v l u HX Hl Hu.
    destruct (cell_compare _ _ _ _ i c v Hbelow HX) as (l' & Hl' & Hb).
    destruct (cell_compare _ _ _ _ i c v Habove HX) as (u' & Hu' & Ha).
    assert (l' = l) as -> by congruence. assert (u' = u) as -> by congruence.
    unfold Frame.astype_int. rewrite cell_map, (cell_or _ _ _ _ _ _ Hb Ha).
    reflexivity.
Qed.

(** With other labels on either bound the comparison raises. *)
Lemma predict_raises h self X lower upper :
  interval_source_returns h self X lower upper →
  ¬ (Frame.same_labels X lower ∧ Frame.same_labels X upper) →
  _predict self X h = (inl (ValueError compare_error), h).
Proof.
  intros Hsrc Hn. rewrite predict_run, (bounds_returns _ _ _ _ _ Hsrc).
  unfold Frame.compare.
  destruct (decide (Frame.same_labels X lower)); [|reflexivity].
  destruct (decide (Frame.same_labels X upper)); [|reflexivity].
  exfalso. apply Hn. done.
Qed.

(** [_predict_proba] always returns once the bounds are there, and each
    cell the query and both bounds have is the score of that cell. *)
Lemma predict_proba_cells h self X lower upper :
  interval_source_returns h self X lower upper →
  ∃ scores,
    _predict_proba self X h = (inr scores, h) ∧
    Frame.index scores = Frame.index X ∧
    ∀ i c v l u,
      Frame.cell X i c = Some v →
      Frame.cell lower i c = Some l →
      Frame.cell upper i c = Some u →
      Frame.cell scores i c = Some (score_of v l u).
Proof.
  intros Hsrc. eexists. split; [|split].
  - unfold _predict_proba. run.
    rewrite (bounds_returns _ _ _ _ _ Hsrc). cbv beta iota. reflexivity.
  - reflexivity.
  - intros i c v l u HX Hl Hu.
    assert (i ∈ Frame.index X) by (apply cell_Some in HX as [[? ?] _]; done).
    apply cell_reindex; [done|].
    rewrite cell_map.
    erewrite cell_arith; [reflexivity| |].
    + rewrite cell_map. erewrite cell_arith; [reflexivity|done|].
      rewrite cell_map. erewrite cell_arith; [reflexivity|done|done].
    + rewrite cell_map. erewrite cell_arith; [reflexivity|done|done].
Qed.

End running.

(** ** The band forecaster *)

Lemma band_xs_interval (key : string) (p : float * float) (fh : list Z) :
  key = "lower" ∨ key = "upper" →
  Frame.xs key (Band.interval p fh)
  = Some (Frame.mk fh ["y"] (λ i c, Frame.values (Band.interval p fh) i (c, key))).
Proof. intros [-> | ->]; reflexivity. Qed.

Lemma band_lower_frame (p : float * float) :
  Frame.xs "lower" (Band.interval p [0%Z]) = Some (Band.bound p.1).
Proof. reflexivity. Qed.

Lemma band_upper_frame (p : float * float) :
  Frame.xs "upper" (Band.interval p [0%Z]) = Some (Band.bound p.2).
Proof. reflexivity. Qed.

Lemma band_source (lo hi v : float) :
  interval_source_returns (Band.world lo hi) 2%positive (Band.query v)
    (Band.bound lo) (Band.bound hi).
Proof.
  exists (mkDetector 1 Band.cov (Some 3%positive) true), 3%positive,
    (lo, hi), true, (Band.query 10), (Band.interval (lo, hi) [0%Z]).
  split; [reflexivity|]. split; [reflexivity|]. split; [reflexivity|].
  split; [reflexivity|]. split; [apply band_lower_frame | apply band_upper_frame].
Qed.

Lemma band_labels_agree (v b : float) :
  Frame.same_labels (Band.query v) (Band.bound b).
Proof. split; reflexivity. Qed.

Lemma band_cell_query (v : float) : Frame.cell (Band.query v) 0 "y" = Some v.
Proof. reflexivity. Qed.

Lemma band_cell_bound (b : float) : Frame.cell (Band.bound b) 0 "y" = Some b.
Proof. reflexivity. Qed.

(** The band answers every query at time 0 with its two bounds. *)
Lemma scene_source (lo hi : float) (X : DataFrame) :
  Frame.index X = [0%Z] →
  interval_source_returns (Band.world lo hi) 2%positive X
    (Band.bound lo) (Band.bound hi).
Proof.
  intros HX.
  exists (mkDetector 1 Band.cov (Some 3%positive) true), 3%positive,
    (lo, hi), true, (Band.query 10), (Band.interval (lo, hi) [0%Z]).
  split; [reflexivity|]. split; [reflexivity|]. split; [reflexivity|].
  split; [simpl; rewrite HX; reflexivity|].
  split; [apply band_lower_frame | apply band_upper_frame].
Qed.

(** ** One cell *)

Section cells.
Context `{Numpy}.
Local Open Scope float_scope.

Lemma label_of_outside (v l u : float) :
  (v <? l) = true ∨ (u <? v) = true → label_of v l u = 1%Z.
Proof. unfold label_of. intros [-> | ->]; [reflexivity|]. by rewrite orb_true_r. Qed.

Lemma label_of_inside (v l u : float) :
  ¬ ((v <? l) = true ∨ (u <? v) = true) → label_of v l u = 0%Z.
Proof.
  unfold label_of. intros Hn.
  destruct (v <? l); [tauto|]. destruct (u <? v); [tauto|]. reflexivity.
Qed.

Lemma label_of_bit (v l u : float) : label_of v l u = 0%Z ∨ label_of v l u = 1%Z.
Proof. unfold label_of. destruct (_ || _); auto. Qed.

Lemma label_of_one (v l u : float) :
  label_of v l u = 1%Z ↔ (v <? l) = true ∨ (u <? v) = true.
Proof.
  split; [|apply label_of_outside].
  unfold label_of. destruct (v <? l); [auto|]. destruct (u <? v); [auto|].
  discriminate.
Qed.

(** A value equal to a bound is within the bounds unless they are
    inverted. *)
Lemma label_of_boundary (v l u : float) :
  (u <? l) = false → (v =? l) = true ∨ (v =? u) = true → label_of v l u = 0%Z.
Proof.
  intros Hul [Hv|Hv]; apply label_of_inside; intros [Hlt|Hlt].
  - rewrite (eqb_ltb_l l v l Hv), ltb_irrefl in Hlt. discriminate.
  - rewrite (eqb_ltb_r u v l Hv) in Hlt. congruence.
  - rewrite (eqb_ltb_l l v u Hv) in Hlt. congruence.
  - rewrite (eqb_ltb_r u v u Hv), ltb_irrefl in Hlt. discriminate.
Qed.

(** The sigmoid at the three arguments where [np.exp] is fixed. *)
Lemma sigmoid_at_1 : 1 / (1 + Num.exp (- (1 - 1))) = 0x1p-1.
Proof. reflexivity. Qed.

Lemma sigmoid_at_infinity : 1 / (1 + Num.exp (- (infinity - 1))) = 1.
Proof. reflexivity. Qed.

Lemma sigmoid_at_nan : 1 / (1 + Num.exp (- (nan - 1))) = nan.
Proof. reflexivity. Qed.

End cells.

(** * Labels and scores *)

Section labels.
Context `{ForecasterModel} `{Pandas}.
Local Open Scope float_scope.

(** C1, with the boundary clause for bounds that are not inverted.  For
    every fitted detector whose interval source answers the query with
    bounds on the row index and the channels of the query, [_predict]
    returns, and at every point, whatever floats the value [v] and the
    bounds [l], [u] are (in any order, so also for [u <= l]), the label is 1
    when [v < l] or [v > u] and 0 otherwise.  Unless [u < l], a value equal
    to [l] or to [u] is labelled 0. *)
Theorem predict_labels h self X lower upper :
  interval_source_returns h self X lower upper →
  Frame.same_labels X lower → Frame.same_labels X upper →
  ∃ labels,
    _predict self X h = (inr labels, h) ∧
    Frame.same_labels labels X ∧
    ∀ i c v l u,
      Frame.cell X i c = Some v →
      Frame.cell lower i c = Some l →
      Frame.cell upper i c = Some u →
      ((v <? l) = true ∨ (u <? v) = true → Frame.cell labels i c = Some 1%Z) ∧
      (¬ ((v <? l) = true ∨ (u <? v) = true) → Frame.cell labels i c = Some 0%Z) ∧
      ((u <? l) = false → (v =? l) = true ∨ (v =? u) = true →
       Frame.cell labels i c = Some 0%Z).
Proof.
  intros Hsrc Hlo Hup.
  destruct (predict_cells h self X lower upper Hsrc Hlo Hup)
    as (labels & Hrun & Hsame & Hcell).
  exists labels. split; [done|]. split; [done|].
  intros i c v l u HX Hl Hu. rewrite (Hcell i c _ _ _ HX Hl Hu).
  split; [|split].
  - intros Hv. f_equal. by apply label_of_outside.
  - intros Hv. f_equal. by apply label_of_inside.
  - intros Hlu Hv. f_equal. by apply label_of_boundary.
Qed.

End labels.

Section labels_examples.
#[local] Existing Instance Lib.pandas.
Local Open Scope float_scope.

(** Band [8, 12]: the value 50 is labelled 1. *)
Lemma predict_labels_witness :
  ∃ labels,
    _predict 2%positive (Band.query 50) (Band.world 8 12)
      = (inr labels, Band.world 8 12) ∧
    Frame.cell labels 0 "y" = Some 1%Z.
Proof.
  destruct (predict_labels (Band.world 8 12) 2%positive (Band.query 50)
              (Band.bound 8) (Band.bound 12) (band_source 8 12 50)
              (band_labels_agree 50 8) (band_labels_agree 50 12))
    as (labels & Hrun & _ & Hcell).
  exists labels. split; [exact Hrun|].
  apply (Hcell 0%Z "y" 50 8 12 (band_cell_query 50) (band_cell_bound 8)
           (band_cell_bound 12)).
  right. reflexivity.
Defined.

(** C1 as it stands fails twice.  With lower = 5 and upper = 3 the value 5
    equals the lower bound and is labelled 1, since it is above the upper
    bound.  And with a query of two channels, of which the interval source
    bounds only the first, the point that has the value 9 and the bounds 8
    and 12 gets no label: the comparison raises. *)
Lemma predict_labels_inverted_bounds :
  (∃ labels,
     _predict 2%positive (Band.query 5) (Band.world 5 3)
       = (inr labels, Band.world 5 3) ∧
     Frame.cell (Band.query 5) 0 "y" = Some 5 ∧
     Frame.cell (Band.bound 5) 0 "y" = Some 5 ∧
     Frame.cell (Band.bound 3) 0 "y" = Some 3 ∧
     Frame.cell labels 0 "y" = Some 1%Z) ∧
  (interval_source_returns (Band.world 8 12) 2%positive
     (Scenes.two_channels 9 0) (Band.bound 8) (Band.bound 12) ∧
   Frame.cell (Scenes.two_channels 9 0) 0 "y" = Some 9 ∧
   Frame.cell (Band.bound 8) 0 "y" = Some 8 ∧
   Frame.cell (Band.bound 12) 0 "y" = Some 12 ∧
   ∃ msg, _predict 2%positive (Scenes.two_channels 9 0) (Band.world 8 12)
            = (inl (ValueError msg), Band.world 8 12)).
Proof.
  split.
  - destruct (predict_cells (Band.world 5 3) 2%positive (Band.query 5)
                (Band.bound 5) (Band.bound 3) (band_source 5 3 5)
                (band_labels_agree 5 5) (band_labels_agree 5 3))
      as (labels & Hrun & _ & Hcell).
    exists labels. split; [exact Hrun|].
    split; [apply band_cell_query|]. split; [apply band_cell_bound|].
    split; [apply band_cell_bound|].
    rewrite (Hcell 0%Z "y" _ _ _ (band_cell_query 5) (band_cell_bound 5)
               (band_cell_bound 3)).
    reflexivity.
  - split; [apply scene_source; reflexivity|].
    split; [reflexivity|]. split; [reflexivity|]. split; [reflexivity|].
    eexists. apply predict_raises with (lower := Band.bound 8) (upper := Band.bound 12).
    + apply scene_source. reflexivity.
    + intros [[_ Hc] _]. discriminate Hc.
Qed.

End labels_examples.

Section scores.
Context `{ForecasterModel} `{Pandas} `{Numpy}.
Local Open Scope float_scope.

(** C2, with the boundary clause for the computed distance.  For every
    fitted detector whose interval source answers the query,
    [_predict_proba] returns, and at every point with value [v] and bounds
    [l], [u] the score is [1 / (1 + exp (- (z - 1)))] with
    [z = |v - center| / half_width], [center = (u + l) / 2] and
    [half_width = (u - l) / 2], each operation being the float64 one.  A
    point where [z] comes out as 1 scores 0.5. *)
Theorem predict_proba_score h self X lower upper :
  interval_source_returns h self X lower upper →
  ∃ scores,
    _predict_proba self X h = (inr scores, h) ∧
    ∀ i c v l u,
      Frame.cell X i c = Some v →
      Frame.cell lower i c = Some l →
      Frame.cell upper i c = Some u →
      let center := (u + l) / 2 in
      let half_width := (u - l) / 2 in
      let z := abs (v - center) / half_width in
      Frame.cell scores i c = Some (1 / (1 + Num.exp (- (z - 1)))) ∧
      (z = 1 → Frame.cell scores i c = Some 0.5).
Proof.
  intros Hsrc.
  destruct (predict_proba_cells h self X lower upper Hsrc)
    as (scores & Hrun & _ & Hcell).
  exists scores. split; [done|].
  intros i c v l u HX Hl Hu center half_width z.
  rewrite (Hcell i c _ _ _ HX Hl Hu). unfold score_of.
  fold center. fold half_width. fold z.
  split; [reflexivity|].
  intros ->. f_equal.
Qed.

(** C4, as far as the two outputs agree.  For every fitted detector whose
    interval source answers the query with bounds on the labels of the
    query, [_predict] and [_predict_proba] both return, on the same store.
    At every point the label is 0 or 1, and 1 exactly when the value is
    below the lower or above the upper bound; the score is 0.5 when [z]
    comes out as 1. *)
Theorem label_and_score_at_boundary h self X lower upper :
  interval_source_returns h self X lower upper →
  Frame.same_labels X lower → Frame.same_labels X upper →
  ∃ labels scores,
    _predict self X h = (inr labels, h) ∧
    _predict_proba self X h = (inr scores, h) ∧
    ∀ i c v l u,
      Frame.cell X i c = Some v →
      Frame.cell lower i c = Some l →
      Frame.cell upper i c = Some u →
      let z := abs (v - (u + l) / 2) / ((u - l) / 2) in
      ∃ label score,
        Frame.cell labels i c = Some label ∧
        Frame.cell scores i c = Some score ∧
        (label = 0%Z ∨ label = 1%Z) ∧
        (label = 1%Z ↔ (v <? l) = true ∨ (u <? v) = true) ∧
        (z = 1 → score = 0.5).
Proof.
  intros Hsrc Hlo Hup.
  destruct (predict_cells h self X lower upper Hsrc Hlo Hup)
    as (labels & Hrun & _ & Hlab).
  destruct (predict_proba_cells h self X lower upper Hsrc)
    as (scores & Hrun' & _ & Hsc).
  exists labels, scores. split; [done|]. split; [done|].
  intros i c v l u HX Hl Hu z.
  exists (label_of v l u), (score_of v l u).
  split; [by apply Hlab|]. split; [by apply Hsc|].
  split; [apply label_of_bit|]. split; [apply label_of_one|].
  unfold score_of. fold z. intros ->. reflexivity.
Qed.

(** C3 does not hold of [_predict_proba].  A history without spread gives
    the band [10, 10]; the value 10 then has [z = 0 / 0] and the method
    returns NaN in that cell, not a score. *)
Theorem predict_proba_zero_width_nan :
  ∃ scores,
    _predict_proba 2%positive (Band.query 10) (Band.world 10 10)
      = (inr scores, Band.world 10 10) ∧
    Frame.cell (Band.query 10) 0 "y" = Some 10 ∧
    Frame.cell (Band.bound 10) 0 "y" = Some 10 ∧
    Frame.cell scores 0 "y" = Some nan.
Proof.
  destruct (predict_proba_cells (Band.world 10 10) 2%positive (Band.query 10)
              (Band.bound 10) (Band.bound 10) (band_source 10 10 10))
    as (scores & Hrun & _ & Hcell).
  exists scores. split; [exact Hrun|].
  split; [apply band_cell_query|]. split; [apply band_cell_bound|].
  rewrite (Hcell 0%Z "y" _ _ _ (band_cell_query 10) (band_cell_bound 10)
             (band_cell_bound 10)).
  reflexivity.
Qed.

(** The same band with a value off the centre: [z] is [+inf] and the score
    is 1. *)
Lemma predict_proba_zero_width_off_centre :
  ∃ scores,
    _predict_proba 2%positive (Band.query 11) (Band.world 10 10)
      = (inr scores, Band.world 10 10) ∧
    Frame.cell scores 0 "y" = Some 1.
Proof.
  destruct (predict_proba_cells (Band.world 10 10) 2%positive (Band.query 11)
              (Band.bound 10) (Band.bound 10) (band_source 10 10 11))
    as (scores & Hrun & _ & Hcell).
  exists scores. split; [exact Hrun|].
  rewrite (Hcell 0%Z "y" _ _ _ (band_cell_query 11) (band_cell_bound 10)
             (band_cell_bound 10)).
  reflexivity.
Qed.

End scores.

Section score_examples.
#[local] Existing Instance Lib.pandas.
#[local] Existing Instance Lib.numpy.
Local Open Scope float_scope.

(** Band [8, 12]: the value 12 on the upper bound has [z = 1] and scores
    0.5. *)
Lemma predict_proba_score_witness :
  ∃ scores,
    _predict_proba 2%positive (Band.query 12) (Band.world 8 12)
      = (inr scores, Band.world 8 12) ∧
    Frame.cell scores 0 "y" = Some 0.5.
Proof.
  destruct (predict_proba_score (Band.world 8 12) 2%positive (Band.query 12)
              (Band.bound 8) (Band.bound 12) (band_source 8 12 12))
    as (scores & Hrun & Hcell).
  exists scores. split; [exact Hrun|].
  pose proof (Hcell 0%Z "y" 12 8 12 (band_cell_query 12) (band_cell_bound 8)
                (band_cell_bound 12)) as Hc.
  cbv zeta in Hc. destruct Hc as [_ Hb]. apply Hb. reflexivity.
Defined.

(** C2 as it stands fails where the sum of the bounds overflows.  With
    lower = 2^1023 and upper = 1.5 * 2^1023, both finite and lower < upper,
    the centre comes out as [+inf]; the value on the upper bound then has
    [z = +inf] and scores 1, not 0.5. *)
Lemma predict_proba_boundary_overflow :
  (0x1p1023 <? 0x1.8p1023) = true ∧
  ∃ scores,
    _predict_proba 2%positive (Band.query 0x1.8p1023)
        (Band.world 0x1p1023 0x1.8p1023)
      = (inr scores, Band.world 0x1p1023 0x1.8p1023) ∧
    Frame.cell (Band.query 0x1.8p1023) 0 "y" = Some 0x1.8p1023 ∧
    Frame.cell (Band.bound 0x1p1023) 0 "y" = Some 0x1p1023 ∧
    Frame.cell (Band.bound 0x1.8p1023) 0 "y" = Some 0x1.8p1023 ∧
    Frame.cell scores 0 "y" = Some 1.
Proof.
  split; [reflexivity|].
  destruct (predict_proba_cells (Band.world 0x1p1023 0x1.8p1023) 2%positive
              (Band.query 0x1.8p1023) (Band.bound 0x1p1023)
              (Band.bound 0x1.8p1023) (band_source _ _ _))
    as (scores & Hrun & _ & Hcell).
  exists scores. split; [exact Hrun|].
  split; [reflexivity|]. split; [reflexivity|]. split; [reflexivity|].
  rewrite (Hcell 0%Z "y" _ _ _ (band_cell_query _) (band_cell_bound _)
             (band_cell_bound _)).
  reflexivity.
Qed.

(** Band [8, 12]: the value 50 has label 1; the value 12 has label 0 and
    the score 0.5. *)
Lemma label_and_score_at_boundary_witness :
  (∃ labels,
     _predict 2%positive (Band.query 50) (Band.world 8 12)
       = (inr labels, Band.world 8 12) ∧
     Frame.cell labels 0 "y" = Some 1%Z) ∧
  (∃ labels scores,
     _predict 2%positive (Band.query 12) (Band.world 8 12)
       = (inr labels, Band.world 8 12) ∧
     _predict_proba 2%positive (Band.query 12) (Band.world 8 12)
       = (inr scores, Band.world 8 12) ∧
     Frame.cell labels 0 "y" = Some 0%Z ∧
     Frame.cell scores 0 "y" = Some 0.5).
Proof.
  split.
  - destruct (label_and_score_at_boundary (Band.world 8 12) 2%positive
                (Band.query 50) (Band.bound 8) (Band.bound 12)
                (band_source 8 12 50) (band_labels_agree 50 8)
                (band_labels_agree 50 12))
      as (labels & scores & Hrun & _ & Hcell).
    destruct (Hcell 0%Z "y" 50 8 12 (band_cell_query 50) (band_cell_bound 8)
                (band_cell_bound 12)) as (label & score & Hl & _ & _ & Hone & _).
    exists labels. split; [exact Hrun|].
    rewrite Hl. f_equal. apply Hone. right. reflexivity.
  - destruct (label_and_score_at_boundary (Band.world 8 12) 2%positive
                (Band.query 12) (Band.bound 8) (Band.bound 12)
                (band_source 8 12 12) (band_labels_agree 12 8)
                (band_labels_agree 12 12))
      as (labels & scores & Hrun & Hrun' & Hcell).
    destruct (Hcell 0%Z "y" 12 8 12 (band_cell_query 12) (band_cell_bound 8)
                (band_cell_bound 12))
      as (label & score & Hl & Hs & [Hb|Hb] & Hone & Hz).
    + exists labels, scores. split; [exact Hrun|]. split; [exact Hrun'|].
      split; [rewrite Hl, Hb; reflexivity|].
      rewrite Hs. f_equal. apply Hz. reflexivity.
    + exfalso. apply Hone in Hb. destruct Hb as [Hb|Hb]; discriminate Hb.
Defined.

(** C4 as it stands fails in both directions, with lower < upper.  With
    lower = 2^53 and upper = 2^53 + 2 the sum of the bounds rounds to 2^54
    and the centre comes out as 2^53: the value 2^53 - 1, below the lower
    bound, has label 1, [z = 1] and the score 0.5.  With lower = 2^1023 and
    upper = 1.5 * 2^1023 the centre comes out as [+inf]: the value
    1.25 * 2^1023, between the bounds, has label 0 and the score 1.  And for
    a query of two channels, of which the interval source bounds only the
    first, the point with the value 9 and the bounds 8 and 12 has a score
    and no label: [_predict] raises. *)
Lemma label_one_with_score_half :
  ((0x1p53 <? 9007199254740994) = true ∧
   abs (9007199254740991 - (9007199254740994 + 0x1p53) / 2)
     / ((9007199254740994 - 0x1p53) / 2) = 1 ∧
   ∃ labels scores,
     _predict 2%positive (Band.query 9007199254740991)
         (Band.world 0x1p53 9007199254740994)
       = (inr labels, Band.world 0x1p53 9007199254740994) ∧
     _predict_proba 2%positive (Band.query 9007199254740991)
         (Band.world 0x1p53 9007199254740994)
       = (inr scores, Band.world 0x1p53 9007199254740994) ∧
     Frame.cell labels 0 "y" = Some 1%Z ∧
     Frame.cell scores 0 "y" = Some 0.5) ∧
  ((0x1p1023 <? 0x1.8p1023) = true ∧
   ∃ labels scores,
     _predict 2%positive (Band.query 0x1.4p1023)
         (Band.world 0x1p1023 0x1.8p1023)
       = (inr labels, Band.world 0x1p1023 0x1.8p1023) ∧
     _predict_proba 2%positive (Band.query 0x1.4p1023)
         (Band.world 0x1p1023 0x1.8p1023)
       = (inr scores, Band.world 0x1p1023 0x1.8p1023) ∧
     Frame.cell labels 0 "y" = Some 0%Z ∧
     Frame.cell scores 0 "y" = Some 1 ∧
     (0.5 <? 1) = true) ∧
  ((8 <? 12) = true ∧
   Frame.cell (Scenes.two_channels 9 0) 0 "y" = Some 9 ∧
   Frame.cell (Band.bound 8) 0 "y" = Some 8 ∧
   Frame.cell (Band.bound 12) 0 "y" = Some 12 ∧
   (∃ msg, _predict 2%positive (Scenes.two_channels 9 0) (Band.world 8 12)
             = (inl (ValueError msg), Band.world 8 12)) ∧
   ∃ scores score,
     _predict_proba 2%positive (Scenes.two_channels 9 0) (Band.world 8 12)
       = (inr scores, Band.world 8 12) ∧
     Frame.cell scores 0 "y" = Some score).
Proof.
  split; [|split].
  - split; [reflexivity|]. split; [reflexivity|].
    destruct (predict_cells (Band.world 0x1p53 9007199254740994) 2%positive
                (Band.query 9007199254740991) (Band.bound 0x1p53)
                (Band.bound 9007199254740994) (band_source _ _ _)
                (band_labels_agree _ _) (band_labels_agree _ _))
      as (labels & Hrun & _ & Hlab).
    destruct (predict_proba_cells (Band.world 0x1p53 9007199254740994) 2%positive
                (Band.query 9007199254740991) (Band.bound 0x1p53)
                (Band.bound 9007199254740994) (band_source _ _ _))
      as (scores & Hrun' & _ & Hsc).
    exists labels, scores. split; [exact Hrun|]. split; [exact Hrun'|].
    rewrite (Hlab 0%Z "y" _ _ _ (band_cell_query _) (band_cell_bound _)
               (band_cell_bound _)).
    rewrite (Hsc 0%Z "y" _ _ _ (band_cell_query _) (band_cell_bound _)
               (band_cell_bound _)).
    split; reflexivity.
  - split; [reflexivity|].
    destruct (predict_cells (Band.world 0x1p1023 0x1.8p1023) 2%positive
                (Band.query 0x1.4p1023) (Band.bound 0x1p1023)
                (Band.bound 0x1.8p1023) (band_source _ _ _)
                (band_labels_agree _ _) (band_labels_agree _ _))
      as (labels & Hrun & _ & Hlab).
    destruct (predict_proba_cells (Band.world 0x1p1023 0x1.8p1023) 2%positive
                (Band.query 0x1.4p1023) (Band.bound 0x1p1023)
                (Band.bound 0x1.8p1023) (band_source _ _ _))
      as (scores & Hrun' & _ & Hsc).
    exists labels, scores. split; [exact Hrun|]. split; [exact Hrun'|].
    rewrite (Hlab 0%Z "y" _ _ _ (band_cell_query _) (band_cell_bound _)
               (band_cell_bound _)).
    rewrite (Hsc 0%Z "y" _ _ _ (band_cell_query _) (band_cell_bound _)
               (band_cell_bound _)).
    split; [reflexivity|]. split; reflexivity.
  - split; [reflexivity|].
    split; [reflexivity|]. split; [reflexivity|]. split; [reflexivity|].
    assert (Hsrc : interval_source_returns (Band.world 8 12) 2%positive
                     (Scenes.two_channels 9 0) (Band.bound 8) (Band.bound 12))
      by (apply scene_source; reflexivity).
    split.
    + eexists. apply predict_raises with (lower := Band.bound 8)
                                          (upper := Band.bound 12); [exact Hsrc|].
      intros [[_ Hc] _]. discriminate Hc.
    + destruct (predict_proba_cells _ _ _ _ _ Hsrc) as (scores & Hrun & _ & Hcell).
      exists scores, (score_of 9 8 12). split; [exact Hrun|].
      apply Hcell; reflexivity.
Qed.

End score_examples.

(** ** Construction and fitting, step by step *)

Section lifecycle_runs.
Context `{ForecasterModel}.
Local Open Scope float_scope.

Lemma coverage_test (cov : float) :
  (0 <? cov) && (cov <? 1) = true ↔ valid_coverage cov.
Proof. unfold valid_coverage. apply andb_true_iff. Qed.

Lemma init_forecaster h fl cov p t s :
  h !! fl = Some (Forecaster p t s) →
  __init__ fl cov h =
    if negb t then (inl (ValueError "forecaster must support prediction intervals"), h)
    else if negb ((0 <? cov) && (cov <? 1))
    then (inl (ValueError "coverage must be between 0 and 1"), h)
    else (inr (mkDetector fl cov None false), h).
Proof.
  intros Hfl. unfold __init__, isinstance_BaseForecaster, get_tag_pred_int. run.
  rewrite Hfl. cbn [negb]. rewrite Hfl. cbn [negb].
  destruct t; cbn [negb]; [|reflexivity].
  destruct (negb _); reflexivity.
Qed.

Lemma init_not_forecaster h fl cov :
  ¬ is_forecaster h fl →
  __init__ fl cov h =
    (inl (ValueError "forecaster must be a BaseForecaster instance"), h).
Proof.
  intros Hn. unfold __init__, isinstance_BaseForecaster. run.
  destruct (h !! fl) as [[p t s| |]|] eqn:Hfl; try reflexivity.
  exfalso. apply Hn. exists p, t, s. done.
Qed.

Lemma new_run h fl cov :
  new fl cov h =
    match __init__ fl cov h with
    | (inr d, h') => (inr (fresh (dom h')), <[fresh (dom h') := Detector d]> h')
    | (inl e, h') => (inl e, h')
    end.
Proof. unfold new, alloc. run. destruct (__init__ fl cov h) as [[e|d] h']; reflexivity. Qed.

(** [_fit], store by store: the clone is allocated, [self.forecaster_]
    points to it, and the clone is fitted unless its [fit] raises. *)
Lemma fit_run h self d p t st X :
  h !! self = Some (Detector d) →
  h !! forecaster d = Some (Forecaster p t st) →
  let c := fresh (dom h) in
  let d' := mkDetector (forecaster d) (coverage d) (Some c) (_is_fitted d) in
  let h1 := <[self := Detector d']> (<[c := Forecaster p t None]> h) in
  _fit self X h =
    match fit_model p X with
    | inr s => (inr self, <[c := Forecaster p t (Some s)]> h1)
    | inl e => (inl e, h1)
    end.
Proof.
  intros Hself Htpl c d' h1.
  assert (Hc : c ∉ dom h) by apply is_fresh.
  assert (Hcs : c ≠ self).
  { intros ->. apply Hc, elem_of_dom. eauto. }
  unfold _fit, get_forecaster_, set_forecaster_, get_detector, clone,
    forecaster_fit, alloc.
  run. rewrite Hself. cbv beta iota. rewrite Htpl. cbv beta iota zeta.
  fold c. rewrite lookup_insert_ne by done. rewrite Hself. cbv beta iota.
  fold d'. fold h1. unfold h1 at 1. rewrite lookup_insert_eq. cbv beta iota.
  change (forecaster_ d') with (Some c). cbv beta iota.
  assert (h1 !! c = Some (Forecaster p t None)) as ->.
  { unfold h1. rewrite lookup_insert_ne, lookup_insert_eq by done. done. }
  destruct (fit_model p X); reflexivity.
Qed.

End lifecycle_runs.

(** * Construction and fitting *)

Section construction.
Context `{ForecasterModel}.
Local Open Scope float_scope.

(** C6, with the type check.  Construction raises exactly when the forecaster
    argument is not a [BaseForecaster] instance, or does not declare the
    prediction-interval capability, or the coverage fails [0 < coverage < 1].
    Every failure is a [ValueError] and leaves the store as it was.  A
    success adds the new detector, holding the two arguments and not fitted,
    at an address that was free: no object of the store, the template
    included, is touched. *)
Theorem new_fails_iff (h : gmap loc pyobj) (fl : loc) (cov : float) :
  ((∃ e h', new fl cov h = (inl e, h')) ↔
     ¬ is_forecaster h fl ∨ ¬ declares_pred_int h fl ∨ ¬ valid_coverage cov) ∧
  (∀ e h', new fl cov h = (inl e, h') → (∃ msg, e = ValueError msg) ∧ h' = h) ∧
  (∀ self h', new fl cov h = (inr self, h') →
     (self ∉ dom h) ∧
     h' = <[self := Detector (mkDetector fl cov None false)]> h ∧
     ∀ l, l ∈ dom h → h' !! l = h !! l).
Proof.
  rewrite new_run.
  destruct (h !! fl) as [[p t s| d |t]|] eqn:Hfl.
  2-4: assert (Hn : ¬ is_forecaster h fl)
         by (intros (p' & t' & s' & Hp); congruence);
       rewrite (init_not_forecaster h fl cov Hn);
       split; [split; [auto | intros _; eauto] |];
       split; [intros e h' [= <- <-]; eauto | intros self h' [=]].
  rewrite (init_forecaster h fl cov p t s Hfl).
  assert (Htag : declares_pred_int h fl ↔ t = true).
  { unfold declares_pred_int, get_tag_pred_int. rewrite Hfl.
    split; [intros [=]; done | intros ->; done]. }
  assert (Hfo : is_forecaster h fl) by (exists p, t, s; done).
  destruct t; cbn [negb].
  - destruct ((0 <? cov) && (cov <? 1)) eqn:Hcov; cbn [negb].
    + apply coverage_test in Hcov.
      split; [split; [intros (e & h' & [=]) | intros [Hx|[Hx|Hx]]; tauto] |].
      split; [intros e h' [=] |].
      intros self h' [= <- <-]. split; [apply is_fresh|]. split; [done|].
      intros l Hl. apply lookup_insert_ne. intros <-.
      by apply (is_fresh (dom h)).
    + assert (¬ valid_coverage cov).
      { intros Hv%coverage_test. congruence. }
      split; [split; [auto | intros _; eauto] |].
      split; [intros e h' [= <- <-]; eauto | intros self h' [=]].
  - assert (¬ declares_pred_int h fl) by (rewrite Htag; discriminate).
    split; [split; [auto | intros _; eauto] |].
    split; [intros e h' [= <- <-]; eauto | intros self h' [=]].
Qed.

(** C9.  Whatever the coverage, and whatever the object would answer for
    the capability tag, construction from an object that is not a
    [BaseForecaster] instance raises the error of the type check, the first
    of the three checks. *)
Theorem new_rejects_non_forecaster (h : gmap loc pyobj) (fl : loc) (cov : float) :
  ¬ is_forecaster h fl →
  new fl cov h =
    (inl (ValueError "forecaster must be a BaseForecaster instance"), h).
Proof.
  intros Hn. rewrite new_run, (init_not_forecaster h fl cov Hn). reflexivity.
Qed.

End construction.

Section fitting.
Context `{ForecasterModel} `{Pandas} `{Numpy}.

(** C8.  [_fit] clones the template, stores the clone in [forecaster_] and
    fits the clone only.  The clone is a new object; the template, and every
    other object there was apart from the detector itself, is as before: if
    the template was not fitted it still is not.  This holds as well when
    fitting the clone raises. *)
Theorem fit_clones_template h self d p t st X :
  h !! self = Some (Detector d) →
  h !! forecaster d = Some (Forecaster p t st) →
  ∃ r h' c,
    _fit self X h = (r, h') ∧
    h' !! forecaster d = Some (Forecaster p t st) ∧
    (∀ l, l ∈ dom h → l ≠ self → h' !! l = h !! l) ∧
    (c ∉ dom h) ∧ c ≠ forecaster d ∧
    h' !! self = Some (Detector (mkDetector (forecaster d) (coverage d)
                                   (Some c) (_is_fitted d))) ∧
    match fit_model p X with
    | inr s => r = inr self ∧ h' !! c = Some (Forecaster p t (Some s))
    | inl e => r = inl e ∧ h' !! c = Some (Forecaster p t None)
    end.
Proof.
  intros Hself Htpl.
  pose proof (fit_run h self d p t st X Hself Htpl) as Hrun. cbv zeta in Hrun.
  set (c := fresh (dom h)) in *.
  assert (Hc : c ∉ dom h) by apply is_fresh.
  assert (Hcs : c ≠ self) by (intros ->; apply Hc, elem_of_dom; eauto).
  assert (Hct : c ≠ forecaster d) by (intros Heq; apply Hc, elem_of_dom; rewrite Heq; eauto).
  assert (Hst : self ≠ forecaster d) by (intros Heq; rewrite <- Heq in Htpl; congruence).
  assert (Hin : ∀ l, l ∈ dom h → c ≠ l) by (intros l Hl <-; done).
  destruct (fit_model p X) as [e|s]; eexists _, _, c; (split; [exact Hrun|]).
  - split; [by rewrite !lookup_insert_ne|].
    split; [intros l Hl Hne; rewrite !lookup_insert_ne; auto|].
    split; [done|]. split; [done|].
    split; [by rewrite lookup_insert_eq|].
    split; [done|]. by rewrite lookup_insert_ne, lookup_insert_eq.
  - split; [by rewrite !lookup_insert_ne|].
    split; [intros l Hl Hne; rewrite !lookup_insert_ne; auto|].
    split; [done|]. split; [done|].
    split; [by rewrite lookup_insert_ne, lookup_insert_eq|].
    split; [done|]. by rewrite lookup_insert_eq.
Qed.

(** C7.  On a detector that is not fitted, [predict] and [predict_proba]
    raise [NotFittedError] and change nothing.  When [fit] returns, the
    detector is fitted: from then on [predict] and [predict_proba] pass the
    check and are [_predict] and [_predict_proba]. *)
Theorem predict_requires_fit h self d :
  h !! self = Some (Detector d) →
  _is_fitted d = false →
  (∀ X, predict self X h = (inl NotFittedError, h)) ∧
  (∀ X, predict_proba self X h = (inl NotFittedError, h)) ∧
  (∀ X0 r h', fit self X0 h = (inr r, h') →
     r = self ∧
     (∃ d', h' !! self = Some (Detector d') ∧ _is_fitted d' = true) ∧
     (∀ X, predict self X h' = _predict self X h') ∧
     (∀ X, predict_proba self X h' = _predict_proba self X h')).
Proof.
  intros Hself Hunfit. split; [|split].
  - intros X. unfold predict, check_is_fitted, get_detector. run.
    rewrite Hself. cbv beta iota. rewrite Hunfit. reflexivity.
  - intros X. unfold predict_proba, check_is_fitted, get_detector. run.
    rewrite Hself. cbv beta iota. rewrite Hunfit. reflexivity.
  - intros X0 r h'. unfold fit, set_is_fitted, get_detector. run.
    destruct (_fit self X0 h) as [[e|r0] h1] eqn:Hfit; cbv beta iota;
      [intros [=]|].
    destruct (h1 !! self) as [[| d1 |]|] eqn:Hself1; cbv beta iota;
      try (intros [=]; fail).
    intros [= <- <-]. split; [done|].
    assert (Hfitted : (<[self := Detector (mkDetector (forecaster d1) (coverage d1)
                          (forecaster_ d1) true)]> h1) !! self
                      = Some (Detector (mkDetector (forecaster d1) (coverage d1)
                          (forecaster_ d1) true))) by apply lookup_insert_eq.
    split; [eauto|]. split; intros X.
    + unfold predict, check_is_fitted, get_detector. run.
      rewrite Hfitted. reflexivity.
    + unfold predict_proba, check_is_fitted, get_detector. run.
      rewrite Hfitted. reflexivity.
Qed.

End fitting.

Section fit_then_predict.
Context `{ForecasterModel} `{Pandas} `{Numpy}.

(** The public [fit] when the clone can be fitted: the store it leaves. *)
Lemma fit_returns h self d p t st X s :
  h !! self = Some (Detector d) →
  h !! forecaster d = Some (Forecaster p t st) →
  fit_model p X = inr s →
  let c := fresh (dom h) in
  fit self X h =
    (inr self,
     <[self := Detector (mkDetector (forecaster d) (coverage d) (Some c) true)]>
     (<[c := Forecaster p t (Some s)]>
     (<[self := Detector (mkDetector (forecaster d) (coverage d) (Some c) (_is_fitted d))]>
     (<[c := Forecaster p t None]> h)))).
Proof.
  intros Hself Htpl Hfit c.
  pose proof (fit_run h self d p t st X Hself Htpl) as Hrun. cbv zeta in Hrun.
  rewrite Hfit in Hrun. fold c in Hrun.
  assert (Hcs : c ≠ self).
  { intros Heq. apply (is_fresh (dom h)). fold c. rewrite Heq.
    apply elem_of_dom. eauto. }
  unfold fit, set_is_fitted, get_detector. run. rewrite Hrun. cbv beta iota.
  rewrite lookup_insert_ne, lookup_insert_eq by done. reflexivity.
Qed.

(** After [fit], the detector answers interval queries with what the model
    of its clone computes from the history. *)
Lemma fit_then_source h self d p t st X0 s X pred_int lower upper :
  h !! self = Some (Detector d) →
  h !! forecaster d = Some (Forecaster p t st) →
  fit_model p X0 = inr s →
  interval_model p s (Frame.index X) (coverage d) = inr pred_int →
  Frame.xs "lower" pred_int = Some lower →
  Frame.xs "upper" pred_int = Some upper →
  ∃ h', fit self X0 h = (inr self, h') ∧
        interval_source_returns h' self X lower upper.
Proof.
  intros Hself Htpl Hfit Hint Hlo Hup.
  pose proof (fit_returns h self d p t st X0 s Hself Htpl Hfit) as Hrun.
  cbv zeta in Hrun. set (c := fresh (dom h)) in *.
  assert (Hcs : c ≠ self).
  { intros Heq. apply (is_fresh (dom h)). fold c. rewrite Heq.
    apply elem_of_dom. eauto. }
  eexists. split; [exact Hrun|].
  exists (mkDetector (forecaster d) (coverage d) (Some c) true), c, p, t, s, pred_int.
  split; [by rewrite lookup_insert_eq|]. split; [done|].
  split; [by rewrite lookup_insert_ne, lookup_insert_eq|]. done.
Qed.

(** After [_fit] the template passes or fails the checks of [__init__] as
    before: it can be given to further detectors. *)
Lemma template_reusable h self d p t st X r h' cov :
  h !! self = Some (Detector d) →
  h !! forecaster d = Some (Forecaster p t st) →
  _fit self X h = (r, h') →
  (__init__ (forecaster d) cov h').1 = (__init__ (forecaster d) cov h).1.
Proof.
  intros Hself Htpl Hfit.
  pose proof (fit_run h self d p t st X Hself Htpl) as Hrun. cbv zeta in Hrun.
  set (c := fresh (dom h)) in *.
  assert (Hc : c ∉ dom h) by apply is_fresh.
  assert (Hct : c ≠ forecaster d)
    by (intros Heq; apply Hc, elem_of_dom; rewrite Heq; eauto).
  assert (Hst : self ≠ forecaster d)
    by (intros Heq; rewrite <- Heq in Htpl; congruence).
  assert (Htpl' : h' !! forecaster d = Some (Forecaster p t st)).
  { rewrite Hfit in Hrun. destruct (fit_model p X); injection Hrun as -> ->;
      by rewrite !lookup_insert_ne. }
  rewrite (init_forecaster h' _ cov p t st Htpl'),
    (init_forecaster h _ cov p t st Htpl).
  destruct (negb t); [done|]. destruct (negb _); done.
Qed.

End fit_then_predict.

Section lifecycle_witnesses.
#[local] Existing Instance Lib.pandas.
#[local] Existing Instance Lib.numpy.
Local Open Scope float_scope.

Lemma half_is_coverage : valid_coverage 0.5.
Proof. split; reflexivity. Qed.

Lemma stranger_is_no_forecaster : ¬ is_forecaster Band.stranger 1%positive.
Proof. intros (p & t & s & Hp). discriminate Hp. Qed.

(** C6 without the type check: an object that is not a [BaseForecaster]
    answers the capability tag with true, the coverage [1/2] lies in (0, 1),
    and construction raises all the same. *)
Lemma new_fails_on_capable_stranger :
  declares_pred_int Band.stranger 1%positive ∧
  valid_coverage 0.5 ∧
  new 1%positive 0.5 Band.stranger
    = (inl (ValueError "forecaster must be a BaseForecaster instance"),
       Band.stranger).
Proof.
  split; [reflexivity|]. split; [apply half_is_coverage|].
  rewrite new_run, (init_not_forecaster _ _ _ stranger_is_no_forecaster).
  reflexivity.
Qed.

(** The four listed coverages 0, 1, -0.1 and 1.5 are rejected for a template
    that passes the other two checks. *)
Lemma new_rejects_listed_coverages (c : float) :
  c = 0 ∨ c = 1 ∨ c = -0x1.999999999999ap-4 ∨ c = 1.5 →
  new 1%positive c (Band.shop 8 12)
    = (inl (ValueError "coverage must be between 0 and 1"), Band.shop 8 12).
Proof.
  intros Hc. rewrite new_run.
  rewrite (init_forecaster (Band.shop 8 12) 1%positive c (8, 12) true None eq_refl).
  destruct Hc as [-> | [-> | [-> | ->]]]; reflexivity.
Qed.

(** The same object and coverage, through the theorem. *)
Lemma new_rejects_non_forecaster_witness :
  new 1%positive 0.5 Band.stranger
    = (inl (ValueError "forecaster must be a BaseForecaster instance"),
       Band.stranger).
Proof.
  apply (new_rejects_non_forecaster Band.stranger 1%positive 0.5).
  intros (p & t & s & Hp). discriminate Hp.
Defined.

(** Fitting the detector built on the band [8, 12]: the template at 1 is
    still not fitted, and the fitted clone is another object. *)
Lemma fit_clones_template_witness :
  ∃ (h' : gmap loc (@pyobj Band.model)) (c : loc),
    _fit 2%positive (Band.query 10) (Band.built 8 12) = (inr 2%positive, h') ∧
    h' !! 1%positive = Some (@Forecaster Band.model (8, 12) true None) ∧
    c ≠ 1%positive ∧
    h' !! c = Some (@Forecaster Band.model (8, 12) true (Some (Band.query 10))).
Proof.
  destruct (fit_clones_template (Band.built 8 12) 2%positive
              (mkDetector 1 Band.cov None false) (8, 12) true None
              (Band.query 10) eq_refl eq_refl)
    as (r & h' & c & Hrun & Htpl & _ & _ & Hc & _ & Hfit).
  simpl in Hfit. destruct Hfit as [-> Hclone].
  exists h', c. auto.
Defined.

(** The detector built on the band [8, 12] raises [NotFittedError] before
    [fit]; [fit] returns and predicting is then allowed. *)
Lemma predict_requires_fit_witness :
  predict 2%positive (Band.query 50) (Band.built 8 12)
    = (inl NotFittedError, Band.built 8 12) ∧
  ∃ h', fit 2%positive (Band.query 10) (Band.built 8 12) = (inr 2%positive, h') ∧
        predict 2%positive (Band.query 50) h' = _predict 2%positive (Band.query 50) h'.
Proof.
  destruct (predict_requires_fit (Band.built 8 12) 2%positive
              (mkDetector 1 Band.cov None false) eq_refl eq_refl)
    as (Hp & _ & Hfit).
  split; [apply Hp|].
  pose proof (fit_returns (Band.built 8 12) 2%positive
                (mkDetector 1 Band.cov None false) (8, 12) true None
                (Band.query 10) (Band.query 10) eq_refl eq_refl eq_refl) as Hrun.
  cbv zeta in Hrun. eexists. split; [exact Hrun|].
  apply (Hfit _ _ _ Hrun).
Defined.

End lifecycle_witnesses.

(** * Further properties of the prediction methods *)

Section read_only.
Context `{ForecasterModel} `{Pandas} `{Numpy}.

(** X1.  Neither prediction method writes to the object store: whatever the
    detector, its forecaster and the query, and whether the call returns or
    raises, the store after the call is the store before it. *)
Theorem predictions_leave_store h self X :
  (_predict self X h).2 = h ∧ (_predict_proba self X h).2 = h.
Proof.
  pose proof (bounds_store h self X) as Hb. split.
  - rewrite predict_run.
    destruct (bounds self X h) as [[e|[lower upper]] h']; simpl in Hb; subst h';
      [reflexivity|].
    destruct (Frame.compare _ X lower); [|reflexivity].
    destruct (Frame.compare _ X upper); reflexivity.
  - pose proof (predict_proba_run h self X) as Hp.
    destruct (bounds self X h) as [[e|[lower upper]] h']; simpl in Hb; subst h'.
    + rewrite Hp. reflexivity.
    + destruct Hp as [scores ->]. reflexivity.
Qed.

(** X2.  Whenever [_predict] returns, its result has exactly the row and
    column labels of the query, and every cell of it is 0 or 1, also where
    the observation or a bound is NaN or infinite. *)
Theorem predict_result_shape h self X labels h' :
  _predict self X h = (inr labels, h') →
  Frame.same_labels labels X ∧
  ∀ i c, Frame.has_label X i c →
    Frame.cell labels i c = Some 0%Z ∨ Frame.cell labels i c = Some 1%Z.
Proof.
  rewrite predict_run.
  destruct (bounds self X h) as [[e|[lower upper]] h1]; [discriminate|].
  destruct (Frame.compare _ X lower) as [below|] eqn:Hb; [|discriminate].
  destruct (Frame.compare _ X upper) as [above|] eqn:Ha; [|discriminate].
  intros [= <- <-].
  unfold Frame.compare in Hb, Ha.
  destruct (decide (Frame.same_labels X lower)); [|discriminate].
  destruct (decide (Frame.same_labels X upper)); [|discriminate].
  injection Hb as <-. injection Ha as <-.
  split; [split; reflexivity|].
  intros i c Hl. unfold Frame.cell, Frame.has_label. simpl.
  destruct (decide _) as [|Hn]; [|destruct (Hn Hl)].
  destruct (_ || _); auto.
Qed.

End read_only.

Section nan_facts.
Context `{Numpy}.
Local Open Scope float_scope.

Lemma score_of_nan (l u : float) : score_of nan l u = nan.
Proof.
  unfold score_of. rewrite sub_nan_l. change (abs nan) with nan.
  rewrite div_nan_l. reflexivity.
Qed.

Lemma score_of_nan_lower (v u : float) : score_of v nan u = nan.
Proof.
  unfold score_of. rewrite add_nan_r, sub_nan_r.
  change (nan / 2) with nan. rewrite sub_nan_r. change (abs nan) with nan.
  rewrite div_nan_l. reflexivity.
Qed.

Lemma score_of_nan_upper (v l : float) : score_of v l nan = nan.
Proof.
  unfold score_of. rewrite add_nan_l, sub_nan_l.
  change (nan / 2) with nan. rewrite sub_nan_r. change (abs nan) with nan.
  rewrite div_nan_l. reflexivity.
Qed.

Lemma label_of_nan (l u : float) : label_of nan l u = 0%Z.
Proof. unfold label_of. rewrite ltb_nan_l, ltb_nan_r. reflexivity. Qed.

Lemma label_of_nan_bounds (v : float) : label_of v nan nan = 0%Z.
Proof. unfold label_of. rewrite ltb_nan_l, ltb_nan_r. reflexivity. Qed.

End nan_facts.

Section edge_cases.
Context `{ForecasterModel} `{Pandas} `{Numpy}.
Local Open Scope float_scope.

(** X3.  A missing observation is never flagged: where the query holds NaN,
    or where both bounds are NaN, the label is 0. *)
Theorem predict_nan_not_flagged h self X lower upper :
  interval_source_returns h self X lower upper →
  Frame.same_labels X lower → Frame.same_labels X upper →
  ∃ labels,
    _predict self X h = (inr labels, h) ∧
    ∀ i c v l u,
      Frame.cell X i c = Some v →
      Frame.cell lower i c = Some l →
      Frame.cell upper i c = Some u →
      v = nan ∨ (l = nan ∧ u = nan) →
      Frame.cell labels i c = Some 0%Z.
Proof.
  intros Hsrc Hlo Hup.
  destruct (predict_cells h self X lower upper Hsrc Hlo Hup)
    as (labels & Hrun & _ & Hcell).
  exists labels. split; [done|].
  intros i c v l u HX Hl Hu Hnan. rewrite (Hcell i c _ _ _ HX Hl Hu).
  f_equal. destruct Hnan as [-> | [-> ->]].
  - apply label_of_nan.
  - apply label_of_nan_bounds.
Qed.

(** X4.  With the bounds of the interval source at hand, [_predict] returns
    exactly when both bounds carry the row index and the columns of the
    query, label by label in the same order; otherwise it raises the
    [ValueError] of the pandas comparison. *)
Theorem predict_returns_iff_same_labels h self X lower upper :
  interval_source_returns h self X lower upper →
  ((∃ labels, _predict self X h = (inr labels, h)) ↔
     (Frame.index X = Frame.index lower ∧ Frame.columns X = Frame.columns lower) ∧
     (Frame.index X = Frame.index upper ∧ Frame.columns X = Frame.columns upper)) ∧
  (¬ (Frame.same_labels X lower ∧ Frame.same_labels X upper) →
   _predict self X h = (inl (ValueError compare_error), h)).
Proof.
  intros Hsrc. rewrite predict_run, (bounds_returns _ _ _ _ _ Hsrc).
  change (Frame.index X = Frame.index lower ∧ Frame.columns X = Frame.columns lower)
    with (Frame.same_labels X lower).
  change (Frame.index X = Frame.index upper ∧ Frame.columns X = Frame.columns upper)
    with (Frame.same_labels X upper).
  unfold Frame.compare.
  destruct (decide (Frame.same_labels X lower)) as [Hl|Hl];
    destruct (decide (Frame.same_labels X upper)) as [Hu|Hu].
  - split; [split; [done | intros _; eauto] | intros []; done].
  - split; [split; [intros [? [=]] | intros []; done] | done].
  - split; [split; [intros [? [=]] | intros []; done] | done].
  - split; [split; [intros [? [=]] | intros []; done] | done].
Qed.

(** X5.  [_predict_proba] does not raise on bounds with other labels: it
    returns a frame on the rows of the query that has every column of the
    query, and a cell of the query that the lower or the upper bound lacks
    is NaN. *)
Theorem predict_proba_unaligned_nan h self X lower upper :
  interval_source_returns h self X lower upper →
  ∃ scores,
    _predict_proba self X h = (inr scores, h) ∧
    Frame.index scores = Frame.index X ∧
    Frame.columns X ⊆ Frame.columns scores ∧
    ∀ i c,
      Frame.has_label X i c →
      ¬ (Frame.has_label lower i c ∧ Frame.has_label upper i c) →
      Frame.cell scores i c = Some nan.
Proof.
  intros Hsrc. eexists. split; [|split; [|split]].
  - unfold _predict_proba. run.
    rewrite (bounds_returns _ _ _ _ _ Hsrc). cbv beta iota. reflexivity.
  - reflexivity.
  - simpl. intros c Hc. apply elem_of_outer. left. apply elem_of_outer. by left.
  - intros i c [Hi Hc] Hn. apply cell_Some. split.
    + split; simpl; [done|].
      apply elem_of_outer. left. apply elem_of_outer. by left.
    + simpl. destruct (decide (i ∈ _)) as [_|Hni].
      2: { exfalso. apply Hni. apply elem_of_outer. left. apply elem_of_outer.
           by left. }
      destruct (decide (Frame.has_label _ i c ∧ Frame.has_label _ i c)) as [_|_];
        [|reflexivity].
      destruct (decide (Frame.has_label upper i c ∧ Frame.has_label lower i c))
        as [[? ?]|_]; [tauto|].
      change (nan / 2) with nan.
      destruct (decide _); [rewrite sub_nan_r|]; change (abs nan) with nan;
        rewrite div_nan_l; reflexivity.
Qed.

(** X6.  A failure of the interval source surfaces unchanged from both
    prediction methods. *)
Theorem interval_failure_propagates h self d f p t s X e :
  h !! self = Some (Detector d) →
  forecaster_ d = Some f →
  h !! f = Some (Forecaster p t (Some s)) →
  interval_model p s (Frame.index X) (coverage d) = inl e →
  _predict self X h = (inl e, h) ∧ _predict_proba self X h = (inl e, h).
Proof.
  intros Hself Hf_ Hf Hint.
  assert (Hb : bounds self X h = (inl e, h)).
  { rewrite bounds_run, Hself, Hf_, Hf, Hint. reflexivity. }
  split.
  - rewrite predict_run, Hb. reflexivity.
  - pose proof (predict_proba_run h self X) as Hp. rewrite Hb in Hp. exact Hp.
Qed.

(** X8.  When the frame of the interval source has no column of the lower
    bound, both prediction methods raise [KeyError] for ["lower"]; when it
    has one but none of the upper bound, for ["upper"]. *)
Theorem missing_bound_is_key_error h self d f p t s X pred_int :
  h !! self = Some (Detector d) →
  forecaster_ d = Some f →
  h !! f = Some (Forecaster p t (Some s)) →
  interval_model p s (Frame.index X) (coverage d) = inr pred_int →
  (Frame.xs "lower" pred_int = None →
   _predict self X h = (inl (KeyError "lower"), h) ∧
   _predict_proba self X h = (inl (KeyError "lower"), h)) ∧
  (Frame.xs "lower" pred_int ≠ None → Frame.xs "upper" pred_int = None →
   _predict self X h = (inl (KeyError "upper"), h) ∧
   _predict_proba self X h = (inl (KeyError "upper"), h)).
Proof.
  intros Hself Hf_ Hf Hint.
  pose proof (bounds_run h self X) as Hb. rewrite Hself, Hf_, Hf, Hint in Hb.
  pose proof (predict_proba_run h self X) as Hp.
  split.
  - intros Hlo. rewrite Hlo in Hb. rewrite Hb in Hp.
    split; [rewrite predict_run, Hb; reflexivity | exact Hp].
  - intros Hlo Hup. destruct (Frame.xs "lower" pred_int); [|done].
    rewrite Hup in Hb. rewrite Hb in Hp.
    split; [rewrite predict_run, Hb; reflexivity | exact Hp].
Qed.

(** X22.  NaN goes through the score: a point where the observation, the
    lower bound or the upper bound is NaN scores NaN, whatever the other
    two are. *)
Theorem nan_cell_scores_nan h self X lower upper :
  interval_source_returns h self X lower upper →
  ∃ scores,
    _predict_proba self X h = (inr scores, h) ∧
    ∀ i c v l u,
      Frame.cell X i c = Some v →
      Frame.cell lower i c = Some l →
      Frame.cell upper i c = Some u →
      v = nan ∨ l = nan ∨ u = nan →
      Frame.cell scores i c = Some nan.
Proof.
  intros Hsrc.
  destruct (predict_proba_cells h self X lower upper Hsrc)
    as (scores & Hrun & _ & Hcell).
  exists scores. split; [done|].
  intros i c v l u HX Hl Hu Hnan. rewrite (Hcell i c _ _ _ HX Hl Hu).
  f_equal. destruct Hnan as [-> | [-> | ->]].
  - apply score_of_nan.
  - apply score_of_nan_lower.
  - apply score_of_nan_upper.
Qed.

End edge_cases.

(** ** The scenes *)

Section scene_facts.
Local Open Scope float_scope.

Lemma other_channel_label (v : float) :
  Frame.has_label (Scenes.other_channel v) 0 "z".
Proof. split; simpl; apply list_elem_of_singleton; reflexivity. Qed.

Lemma other_channel_differs (v b : float) :
  ¬ Frame.same_labels (Scenes.other_channel v) (Band.bound b).
Proof. intros [_ Hc]. discriminate Hc. Qed.

Lemma other_channel_no_bound (v b : float) :
  ¬ Frame.has_label (Band.bound b) 0 "z".
Proof.
  intros [_ Hc]. simpl in Hc. apply list_elem_of_singleton in Hc. discriminate.
Qed.

Lemma xs_only_other (key key' : string) (fh : list Z) :
  key ≠ key' → Frame.xs key (Faulty.only key' fh) = None.
Proof.
  intros Hk. unfold Frame.xs, Faulty.only. simpl.
  rewrite filter_cons, filter_nil. simpl.
  destruct (decide (key' = key)); [congruence|]. reflexivity.
Qed.

Lemma xs_only_same (key : string) (fh : list Z) :
  Frame.xs key (Faulty.only key fh) ≠ None.
Proof.
  unfold Frame.xs, Faulty.only. simpl.
  rewrite filter_cons, filter_nil. simpl.
  destruct (decide (key = key)); done.
Qed.

End scene_facts.

Section edge_witnesses.
#[local] Existing Instance Lib.pandas.
#[local] Existing Instance Lib.numpy.
Local Open Scope float_scope.

(** Band [8, 12], value 50: the result has the labels of the query. *)
Lemma predict_result_shape_witness :
  ∃ labels,
    _predict 2%positive (Band.query 50) (Band.world 8 12)
      = (inr labels, Band.world 8 12) ∧
    Frame.same_labels labels (Band.query 50).
Proof.
  destruct (predict_cells (Band.world 8 12) 2%positive (Band.query 50)
              (Band.bound 8) (Band.bound 12) (band_source 8 12 50)
              (band_labels_agree 50 8) (band_labels_agree 50 12))
    as (labels & Hrun & _ & _).
  exists labels. split; [exact Hrun|].
  apply (predict_result_shape _ _ _ _ _ Hrun).
Defined.

(** Band [8, 12]: a NaN observation is labelled 0. *)
Lemma predict_nan_not_flagged_witness :
  ∃ labels,
    _predict 2%positive (Band.query nan) (Band.world 8 12)
      = (inr labels, Band.world 8 12) ∧
    Frame.cell labels 0 "y" = Some 0%Z.
Proof.
  destruct (predict_nan_not_flagged (Band.world 8 12) 2%positive
              (Band.query nan) (Band.bound 8) (Band.bound 12)
              (band_source 8 12 nan)
              (band_labels_agree nan 8) (band_labels_agree nan 12))
    as (labels & Hrun & Hcell).
  exists labels. split; [exact Hrun|].
  apply (Hcell 0%Z "y" nan 8 12 (band_cell_query nan)
           (band_cell_bound 8) (band_cell_bound 12)).
  left. reflexivity.
Defined.

(** Band [8, 12] on channel ["y"], query on channel ["z"]: [_predict]
    raises. *)
Lemma predict_returns_iff_same_labels_witness :
  _predict 2%positive (Scenes.other_channel 50) (Band.world 8 12)
    = (inl (ValueError compare_error), Band.world 8 12).
Proof.
  destruct (predict_returns_iff_same_labels (Band.world 8 12) 2%positive
              (Scenes.other_channel 50) (Band.bound 8) (Band.bound 12)
              (scene_source 8 12 (Scenes.other_channel 50) eq_refl)) as [_ Hraise].
  apply Hraise. intros [Hl _]. exact (other_channel_differs 50 8 Hl).
Defined.

(** The same query: [_predict_proba] returns, with NaN in the cell. *)
Lemma predict_proba_unaligned_nan_witness :
  ∃ scores,
    _predict_proba 2%positive (Scenes.other_channel 50) (Band.world 8 12)
      = (inr scores, Band.world 8 12) ∧
    Frame.cell scores 0 "z" = Some nan.
Proof.
  destruct (predict_proba_unaligned_nan (Band.world 8 12) 2%positive
              (Scenes.other_channel 50) (Band.bound 8) (Band.bound 12)
              (scene_source 8 12 (Scenes.other_channel 50) eq_refl))
    as (scores & Hrun & _ & _ & Hcell).
  exists scores. split; [exact Hrun|].
  apply (Hcell 0%Z "z" (other_channel_label 50)).
  intros [Hl _]. exact (other_channel_no_bound 50 8 Hl).
Defined.

(** A forecaster whose interval query raises error 2. *)
Lemma interval_failure_propagates_witness :
  _predict 2%positive (Band.query 50) (Faulty.world Faulty.IntervalRaises)
    = (inl (ForecasterError 2), Faulty.world Faulty.IntervalRaises) ∧
  _predict_proba 2%positive (Band.query 50) (Faulty.world Faulty.IntervalRaises)
    = (inl (ForecasterError 2), Faulty.world Faulty.IntervalRaises).
Proof.
  apply (interval_failure_propagates (Faulty.world Faulty.IntervalRaises)
           2%positive (mkDetector 1 Band.cov (Some 3%positive) true)
           3%positive Faulty.IntervalRaises true tt (Band.query 50)
           (ForecasterError 2) eq_refl eq_refl eq_refl eq_refl).
Defined.

(** A forecaster whose frame has the upper bound only. *)
Lemma missing_bound_is_key_error_witness :
  _predict 2%positive (Band.query 50) (Faulty.world Faulty.NoLower)
    = (inl (KeyError "lower"), Faulty.world Faulty.NoLower).
Proof.
  destruct (missing_bound_is_key_error (Faulty.world Faulty.NoLower)
              2%positive (mkDetector 1 Band.cov (Some 3%positive) true)
              3%positive Faulty.NoLower true tt (Band.query 50)
              (Faulty.only "upper" [0%Z]) eq_refl eq_refl eq_refl eq_refl)
    as [Hlo _].
  apply Hlo. apply xs_only_other. discriminate.
Defined.

(** Band [8, NaN]: the value 9 scores NaN. *)
Lemma nan_cell_scores_nan_witness :
  ∃ scores,
    _predict_proba 2%positive (Band.query 9) (Band.world 8 nan)
      = (inr scores, Band.world 8 nan) ∧
    Frame.cell scores 0 "y" = Some nan.
Proof.
  destruct (nan_cell_scores_nan (Band.world 8 nan) 2%positive
              (Band.query 9) (Band.bound 8) (Band.bound nan)
              (band_source 8 nan 9))
    as (scores & Hrun & Hcell).
  exists scores. split; [exact Hrun|].
  apply (Hcell 0%Z "y" 9 8 nan (band_cell_query 9)
           (band_cell_bound 8) (band_cell_bound nan)).
  right. right. reflexivity.
Defined.

End edge_witnesses.

(** * Further properties of construction and fitting *)

Section construction_facts.
Context `{ForecasterModel} `{Pandas} `{Numpy}.
Local Open Scope float_scope.

Lemma new_returns h fl cov p s :
  h !! fl = Some (Forecaster p true s) →
  valid_coverage cov →
  new fl cov h =
    (inr (fresh (dom h)),
     <[fresh (dom h) := Detector (mkDetector fl cov None false)]> h).
Proof.
  intros Hfl Hcov%coverage_test.
  rewrite new_run, (init_forecaster h fl cov p true s Hfl), Hcov. reflexivity.
Qed.

Lemma new_inr h fl cov self h1 :
  new fl cov h = (inr self, h1) →
  (∃ p s, h !! fl = Some (Forecaster p true s)) ∧
  valid_coverage cov ∧
  self = fresh (dom h) ∧
  h1 = <[self := Detector (mkDetector fl cov None false)]> h.
Proof.
  rewrite new_run.
  destruct (h !! fl) as [[p t s| d |t]|] eqn:Hfl.
  2-4: rewrite init_not_forecaster
         by (intros (p' & t' & s' & Hp); congruence); discriminate.
  rewrite (init_forecaster h fl cov p t s Hfl).
  destruct t; cbn [negb]; [|discriminate].
  destruct ((0 <? cov) && (cov <? 1)) eqn:Hcov; cbn [negb];
    [|discriminate].
  intros [= <- <-]. apply coverage_test in Hcov. eauto 6.
Qed.

(** X7.  A detector that has been constructed and not fitted has no
    [forecaster_]: called on it directly, [_predict] and [_predict_proba]
    raise [AttributeError] and leave the store as it is. *)
Theorem private_predict_before_fit h fl cov self h1 :
  new fl cov h = (inr self, h1) →
  ∀ X,
    _predict self X h1 = (inl (AttributeError "forecaster_"), h1) ∧
    _predict_proba self X h1 = (inl (AttributeError "forecaster_"), h1).
Proof.
  intros (_ & _ & _ & ->)%new_inr X.
  assert (Hb : bounds self X (<[self := Detector (mkDetector fl cov None false)]> h)
               = (inl (AttributeError "forecaster_"),
                  <[self := Detector (mkDetector fl cov None false)]> h)).
  { rewrite bounds_run, lookup_insert_eq. reflexivity. }
  split.
  - rewrite predict_run, Hb. reflexivity.
  - pose proof (predict_proba_run
                  (<[self := Detector (mkDetector fl cov None false)]> h) self X)
      as Hp.
    rewrite Hb in Hp. exact Hp.
Qed.

(** X15.  The order of the checks of [__init__] shows in the error: a
    forecaster without the capability is rejected with the capability
    message whatever the coverage is; a forecaster with the capability and a
    coverage outside (0, 1), NaN included, is rejected with the coverage
    message. *)
Theorem new_error_order h fl cov p t s :
  h !! fl = Some (Forecaster p t s) →
  (t = false →
   new fl cov h =
     (inl (ValueError "forecaster must support prediction intervals"), h)) ∧
  (t = true → ¬ valid_coverage cov →
   new fl cov h = (inl (ValueError "coverage must be between 0 and 1"), h)).
Proof.
  intros Hfl. rewrite new_run, (init_forecaster h fl cov p t s Hfl).
  split.
  - intros ->. reflexivity.
  - intros -> Hcov. cbn [negb].
    destruct ((0 <? cov) && (cov <? 1)) eqn:Ht; [|reflexivity].
    apply coverage_test in Ht. done.
Qed.

(** X16.  Two detectors constructed one after the other from the same
    template are two objects; each holds the template and its own coverage,
    neither is fitted, and the template is as it was. *)
Theorem two_constructions_share_template h fl cov1 cov2 a h1 b h2 :
  new fl cov1 h = (inr a, h1) →
  new fl cov2 h1 = (inr b, h2) →
  a ≠ b ∧
  h2 !! a = Some (Detector (mkDetector fl cov1 None false)) ∧
  h2 !! b = Some (Detector (mkDetector fl cov2 None false)) ∧
  h2 !! fl = h !! fl.
Proof.
  intros (Hfl & _ & Ha & ->)%new_inr (Hfl1 & _ & Hb & ->)%new_inr.
  assert (Hab : a ≠ b).
  { intros E. apply (is_fresh (dom (<[a := Detector (mkDetector fl cov1 None false)]> h))).
    rewrite <- Hb, <- E. apply elem_of_dom. rewrite lookup_insert_eq. eauto. }
  assert (Hfa : fl ≠ a).
  { intros E. apply (is_fresh (dom h)). rewrite <- Ha, <- E.
    destruct Hfl as (p & s & Hp). apply elem_of_dom. eauto. }
  assert (Hfb : fl ≠ b).
  { intros E. apply (is_fresh (dom (<[a := Detector (mkDetector fl cov1 None false)]> h))).
    rewrite <- Hb, <- E. destruct Hfl1 as (p & s & Hp). apply elem_of_dom. eauto. }
  split; [done|]. split; [by rewrite lookup_insert_ne, lookup_insert_eq|].
  split; [by rewrite lookup_insert_eq|]. by rewrite !lookup_insert_ne.
Qed.

End construction_facts.

Section fitting_facts.
Context `{ForecasterModel} `{Pandas} `{Numpy}.
Local Open Scope float_scope.

(** [_fit] when the clone can be fitted: the store it leaves. *)
Lemma fit_private_returns h self d p t st X s :
  h !! self = Some (Detector d) →
  h !! forecaster d = Some (Forecaster p t st) →
  fit_model p X = inr s →
  let c := fresh (dom h) in
  _fit self X h =
    (inr self,
     <[c := Forecaster p t (Some s)]>
     (<[self := Detector (mkDetector (forecaster d) (coverage d) (Some c) (_is_fitted d))]>
     (<[c := Forecaster p t None]> h))).
Proof.
  intros Hself Htpl Hfit c.
  pose proof (fit_run h self d p t st X Hself Htpl) as Hrun. cbv zeta in Hrun.
  rewrite Hfit in Hrun. exact Hrun.
Qed.

(** The two prediction methods read the store only through the interval
    query. *)
Lemma predictions_of_bounds h h' self X lower upper :
  bounds self X h = (inr (lower, upper), h) →
  bounds self X h' = (inr (lower, upper), h') →
  (_predict self X h').1 = (_predict self X h).1 ∧
  (_predict_proba self X h').1 = (_predict_proba self X h).1.
Proof.
  intros Hb Hb'. split.
  - rewrite !predict_run, Hb, Hb'.
    destruct (Frame.compare _ X lower); [|reflexivity].
    destruct (Frame.compare _ X upper); reflexivity.
  - unfold _predict_proba. run. rewrite Hb, Hb'. reflexivity.
Qed.

(** X17.  Fitting again replaces the fitted forecaster: [_fit] on a detector
    that already has one makes a new clone of the template, fits it on the
    new data and stores it in [forecaster_]; the forecaster of the earlier
    fit stays in the store as it was. *)
Theorem refit_replaces_clone h self d old o p t st X s :
  h !! self = Some (Detector d) →
  forecaster_ d = Some old →
  h !! old = Some o →
  h !! forecaster d = Some (Forecaster p t st) →
  fit_model p X = inr s →
  ∃ h' c,
    _fit self X h = (inr self, h') ∧
    c ≠ old ∧ (c ∉ dom h) ∧
    h' !! self = Some (Detector (mkDetector (forecaster d) (coverage d)
                                   (Some c) (_is_fitted d))) ∧
    h' !! c = Some (Forecaster p t (Some s)) ∧
    (old ≠ self → h' !! old = Some o).
Proof.
  intros Hself Hold Ho Htpl Hfit.
  pose proof (fit_private_returns h self d p t st X s Hself Htpl Hfit) as Hrun.
  cbv zeta in Hrun. set (c := fresh (dom h)) in *.
  assert (Hc : c ∉ dom h) by apply is_fresh.
  assert (Hcs : c ≠ self) by (intros ->; apply Hc, elem_of_dom; eauto).
  assert (Hco : c ≠ old) by (intros E; apply Hc, elem_of_dom; rewrite E; eauto).
  eexists _, c. split; [exact Hrun|]. split; [done|]. split; [done|].
  split; [by rewrite lookup_insert_ne, lookup_insert_eq|].
  split; [by rewrite lookup_insert_eq|].
  intros Hos. rewrite !lookup_insert_ne by done. done.
Qed.

(** X18.  Construction, [_fit] and [_predict] in a row: the interval query
    goes to a clone of the template fitted on the history, with the coverage
    given at construction and the index of the query; the labels are the
    outcome of the strict test against its bounds, and the template is as it
    was, not fitted if it was not. *)
Theorem construct_fit_predict h fl cov p st X0 s X pred_int lower upper :
  h !! fl = Some (Forecaster p true st) →
  valid_coverage cov →
  fit_model p X0 = inr s →
  interval_model p s (Frame.index X) cov = inr pred_int →
  Frame.xs "lower" pred_int = Some lower →
  Frame.xs "upper" pred_int = Some upper →
  Frame.same_labels X lower → Frame.same_labels X upper →
  ∃ self h1 h2 labels,
    new fl cov h = (inr self, h1) ∧
    _fit self X0 h1 = (inr self, h2) ∧
    _predict self X h2 = (inr labels, h2) ∧
    h2 !! fl = Some (Forecaster p true st) ∧
    ∀ i c v l u,
      Frame.cell X i c = Some v →
      Frame.cell lower i c = Some l →
      Frame.cell upper i c = Some u →
      ((v <? l) = true ∨ (u <? v) = true → Frame.cell labels i c = Some 1%Z) ∧
      ((l <=? v) = true ∧ (v <=? u) = true → Frame.cell labels i c = Some 0%Z).
Proof.
  intros Hfl Hcov Hfit Hint Hlo Hup Hsl Hsu.
  pose proof (new_returns h fl cov p st Hfl Hcov) as Hnew.
  set (self := fresh (dom h)) in *.
  set (h1 := <[self := Detector (mkDetector fl cov None false)]> h) in *.
  assert (Hself : self ∉ dom h) by apply is_fresh.
  assert (Hsf : self ≠ fl) by (intros E; apply Hself, elem_of_dom; rewrite E; eauto).
  assert (H1self : h1 !! self = Some (Detector (mkDetector fl cov None false)))
    by apply lookup_insert_eq.
  assert (H1fl : h1 !! fl = Some (Forecaster p true st))
    by (unfold h1; by rewrite lookup_insert_ne).
  pose proof (fit_private_returns h1 self _ p true st X0 s H1self H1fl Hfit) as Hrun.
  cbv zeta in Hrun. simpl forecaster in Hrun. simpl coverage in Hrun.
  simpl _is_fitted in Hrun.
  set (c := fresh (dom h1)) in *.
  assert (Hc : c ∉ dom h1) by apply is_fresh.
  assert (Hcs : c ≠ self) by (intros E; apply Hc, elem_of_dom; rewrite E; eauto).
  assert (Hcf : c ≠ fl) by (intros E; apply Hc, elem_of_dom; rewrite E; eauto).
  set (h2 := <[c := Forecaster p true (Some s)]> _) in Hrun.
  assert (Hsrc : interval_source_returns h2 self X lower upper).
  { exists (mkDetector fl cov (Some c) false), c, p, true, s, pred_int.
    split; [unfold h2; by rewrite lookup_insert_ne, lookup_insert_eq|].
    split; [done|]. split; [unfold h2; by rewrite lookup_insert_eq|]. done. }
  destruct (predict_cells h2 self X lower upper Hsrc Hsl Hsu)
    as (labels & Hpred & _ & Hcell).
  exists self, h1, h2, labels. split; [done|]. split; [done|]. split; [done|].
  split; [unfold h2; by rewrite !lookup_insert_ne|].
  intros i c0 v l u HX Hl Hu. rewrite (Hcell i c0 _ _ _ HX Hl Hu). split.
  - intros Hv. f_equal. by apply label_of_outside.
  - intros [Hlv Hvu]. f_equal. apply label_of_inside.
    rewrite (leb_not_ltb _ _ Hlv), (leb_not_ltb _ _ Hvu). intros [|]; discriminate.
Qed.

(** X19.  Detectors are independent: fitting detector [b] changes nothing
    for another fitted detector [a], which answers every query after it as
    before, whether or not the fitting of [b] succeeds. *)
Theorem fit_keeps_other_detector h a b db p t st X0 r h' X lower upper :
  interval_source_returns h a X lower upper →
  h !! b = Some (Detector db) →
  a ≠ b →
  h !! forecaster db = Some (Forecaster p t st) →
  _fit b X0 h = (r, h') →
  interval_source_returns h' a X lower upper ∧
  (_predict a X h').1 = (_predict a X h).1 ∧
  (_predict_proba a X h').1 = (_predict_proba a X h).1.
Proof.
  intros Hsrc Hb Hab Htpl Hfit.
  pose proof (fit_run h b db p t st X0 Hb Htpl) as Hrun. cbv zeta in Hrun.
  set (c := fresh (dom h)) in *.
  assert (Hc : c ∉ dom h) by apply is_fresh.
  assert (Hkeep : ∀ l, l ∈ dom h → l ≠ b → h' !! l = h !! l).
  { intros l Hl Hlb. assert (c ≠ l) by (intros <-; done).
    rewrite Hfit in Hrun.
    destruct (fit_model p X0); injection Hrun as -> ->;
      by rewrite !lookup_insert_ne. }
  assert (Hsrc' : interval_source_returns h' a X lower upper).
  { destruct Hsrc as (d & f & p' & t' & s' & PI & Ha & Hf_ & Hf & Hrest).
    exists d, f, p', t', s', PI.
    split; [rewrite Hkeep; [done | apply elem_of_dom; eauto | done]|].
    split; [done|]. split; [|done].
    rewrite Hkeep; [done | apply elem_of_dom; eauto | congruence]. }
  split; [done|].
  apply (predictions_of_bounds h h' a X lower upper); by apply bounds_returns.
Qed.

End fitting_facts.

Section test_params_facts.
Context `{ForecasterModel} `{Pandas} `{Numpy}.
Local Open Scope float_scope.

(** X20.  The test parameters are accepted by the constructor: for any
    [parameter_set], [get_test_params] makes a new forecaster, leaves the
    objects there were untouched, and returns it with the coverage 0.9; a
    detector constructed from the two values comes into being. *)
Theorem test_params_accepted h naive_mean parameter_set :
  ∃ f (dict : gmap string pyval) h1 self h2,
    get_test_params naive_mean parameter_set h = (inr dict, h1) ∧
    dict !! "forecaster" = Some (Ref f) ∧
    dict !! "coverage" = Some (Float 0x1.ccccccccccccdp-1) ∧
    (f ∉ dom h) ∧
    (∀ l, l ∈ dom h → h1 !! l = h !! l) ∧
    new f 0x1.ccccccccccccdp-1 h1 = (inr self, h2) ∧
    h2 !! self = Some (Detector (mkDetector f 0x1.ccccccccccccdp-1 None false)).
Proof.
  set (f := fresh (dom h)).
  set (h1 := <[f := Forecaster naive_mean true None]> h).
  assert (Hf : f ∉ dom h) by apply is_fresh.
  assert (Hcov : valid_coverage 0x1.ccccccccccccdp-1) by (split; reflexivity).
  assert (Hnewf : h1 !! f = Some (Forecaster naive_mean true None))
    by apply lookup_insert_eq.
  exists f; eexists; exists h1, (fresh (dom h1)); eexists.
  split; [reflexivity|]. split; [done|]. split; [done|]. split; [done|].
  split.
  - intros l Hl. unfold h1. apply lookup_insert_ne. intros <-. done.
  - split; [apply (new_returns h1 f _ naive_mean None Hnewf Hcov)|].
    apply lookup_insert_eq.
Qed.

End test_params_facts.

Section lifecycle_edge_witnesses.
#[local] Existing Instance Lib.pandas.
#[local] Existing Instance Lib.numpy.
Local Open Scope float_scope.

Lemma pair_source (lo hi v : float) :
  interval_source_returns (Scenes.pair lo hi) 2%positive (Band.query v)
    (Band.bound lo) (Band.bound hi).
Proof.
  exists (mkDetector 1 (Band.cov) (Some 3%positive) true), 3%positive,
    (lo, hi), true, (Band.query 10), (Band.interval (lo, hi) [0%Z]).
  split; [reflexivity|]. split; [reflexivity|]. split; [reflexivity|].
  split; [reflexivity|]. split; [apply band_lower_frame | apply band_upper_frame].
Qed.

(** A detector constructed on the band [8, 12] and asked at once. *)
Lemma private_predict_before_fit_witness :
  ∃ self h1,
    new 1%positive 0.5 (Band.shop 8 12) = (inr self, h1) ∧
    _predict self (Band.query 50) h1 = (inl (AttributeError "forecaster_"), h1).
Proof.
  pose proof (new_returns (Band.shop 8 12) 1%positive 0.5 (8, 12) None
                eq_refl half_is_coverage) as Hnew.
  eexists _, _. split; [exact Hnew|].
  apply (private_predict_before_fit _ _ _ _ _ Hnew (Band.query 50)).
Defined.

(** No capability and the coverage 2: the capability message. *)
Lemma new_error_order_witness :
  new 1%positive 2 Scenes.untagged
    = (inl (ValueError "forecaster must support prediction intervals"),
       Scenes.untagged).
Proof.
  destruct (new_error_order Scenes.untagged 1%positive 2 (8, 12) false
              None eq_refl) as [Hcap _].
  apply Hcap. reflexivity.
Defined.

(** Two detectors on the template of the band [8, 12]. *)
Lemma two_constructions_share_template_witness :
  ∃ a h1 b h2,
    new 1%positive 0.5 (Band.shop 8 12) = (inr a, h1) ∧
    new 1%positive 0.5 h1 = (inr b, h2) ∧
    a ≠ b ∧
    h2 !! 1%positive = Some (@Forecaster Band.model (8, 12) true None).
Proof.
  pose proof (new_returns (Band.shop 8 12) 1%positive 0.5 (8, 12) None
                eq_refl half_is_coverage) as Hnew1.
  set (a := fresh (dom (Band.shop 8 12))) in *.
  set (h1 := <[a := _]> (Band.shop 8 12)) in *.
  assert (Ha : a ≠ 1%positive).
  { intros E. apply (is_fresh (dom (Band.shop 8 12))). fold a. rewrite E.
    apply elem_of_dom. eexists. reflexivity. }
  assert (H1 : h1 !! 1%positive = Some (@Forecaster Band.model (8, 12) true None)).
  { unfold h1. rewrite lookup_insert_ne by done. reflexivity. }
  pose proof (new_returns h1 1%positive 0.5 (8, 12) None
                H1 half_is_coverage) as Hnew2.
  destruct (two_constructions_share_template _ _ _ _ _ _ _ _ Hnew1 Hnew2)
    as (Hab & _ & _ & Htpl).
  eexists a, h1, _, _. split; [exact Hnew1|]. split; [exact Hnew2|].
  split; [exact Hab|]. rewrite Htpl. reflexivity.
Defined.

(** The fitted detector of the band [8, 12] fitted again: another clone,
    and the one at 3 is kept. *)
Lemma refit_replaces_clone_witness :
  ∃ (h' : gmap loc (@pyobj Band.model)) (c : loc),
    _fit 2%positive (Band.query 11) (Band.world 8 12) = (inr 2%positive, h') ∧
    c ≠ 3%positive ∧
    h' !! c = Some (@Forecaster Band.model (8, 12) true (Some (Band.query 11))) ∧
    h' !! 3%positive
      = Some (@Forecaster Band.model (8, 12) true (Some (Band.query 10))).
Proof.
  destruct (refit_replaces_clone (Band.world 8 12) 2%positive
              (mkDetector 1 (Band.cov) (Some 3%positive) true) 3%positive
              (@Forecaster Band.model (8, 12) true (Some (Band.query 10)))
              (8, 12) true None (Band.query 11) (Band.query 11)
              eq_refl eq_refl eq_refl eq_refl eq_refl)
    as (h' & c & Hrun & Hc & _ & _ & Hnew & Hold).
  exists h', c. split; [exact Hrun|]. split; [exact Hc|]. split; [exact Hnew|].
  apply Hold. discriminate.
Defined.

(** The band [8, 12] from the template to the label of the value 50. *)
Lemma construct_fit_predict_witness :
  ∃ self h1 h2 labels,
    new 1%positive 0.5 (Band.shop 8 12) = (inr self, h1) ∧
    _fit self (Band.query 10) h1 = (inr self, h2) ∧
    _predict self (Band.query 50) h2 = (inr labels, h2) ∧
    Frame.cell labels 0 "y" = Some 1%Z.
Proof.
  destruct (construct_fit_predict (Band.shop 8 12) 1%positive 0.5
              (8, 12) None (Band.query 10) (Band.query 10) (Band.query 50)
              (Band.interval (8, 12) [0%Z]) (Band.bound 8) (Band.bound 12)
              eq_refl half_is_coverage eq_refl eq_refl
              (band_lower_frame (8, 12)) (band_upper_frame (8, 12))
              (band_labels_agree 50 8) (band_labels_agree 50 12))
    as (self & h1 & h2 & labels & Hnew & Hfit & Hpred & _ & Hcell).
  exists self, h1, h2, labels. split; [exact Hnew|]. split; [exact Hfit|].
  split; [exact Hpred|].
  apply (Hcell 0%Z "y" 50 8 12 (band_cell_query 50) (band_cell_bound 8)
           (band_cell_bound 12)).
  right. reflexivity.
Defined.

(** Fitting the detector at 4 leaves the labels of the detector at 2. *)
Lemma fit_keeps_other_detector_witness :
  ∃ r h',
    _fit 4%positive (Band.query 10) (Scenes.pair 8 12) = (r, h') ∧
    (_predict 2%positive (Band.query 50) h').1
      = (_predict 2%positive (Band.query 50) (Scenes.pair 8 12)).1.
Proof.
  destruct (_fit 4%positive (Band.query 10) (Scenes.pair 8 12)) as [r h'] eqn:Hfit.
  exists r, h'. split; [reflexivity|].
  apply (fit_keeps_other_detector (Scenes.pair 8 12) 2%positive 4%positive
           (mkDetector 1 0.5 None false) (8, 12) true None
           (Band.query 10) r h' (Band.query 50) (Band.bound 8) (Band.bound 12)
           (pair_source 8 12 50) eq_refl ltac:(discriminate) eq_refl Hfit).
Defined.

End lifecycle_edge_witnesses.

(** * Non-finite cells, inverted and empty intervals *)

Section score_edges.
Context `{ForecasterModel} `{Pandas} `{Numpy}.
Local Open Scope float_scope.

(** X9.  With inverted bounds, [u < l], every observation that is not NaN
    is labelled 1: it is below the lower or above the upper bound. *)
Theorem inverted_bounds_label h self X lower upper :
  interval_source_returns h self X lower upper →
  Frame.same_labels X lower → Frame.same_labels X upper →
  ∃ labels,
    _predict self X h = (inr labels, h) ∧
    ∀ i c v l u,
      Frame.cell X i c = Some v →
      Frame.cell lower i c = Some l →
      Frame.cell upper i c = Some u →
      (u <? l) = true → is_nan v = false →
      Frame.cell labels i c = Some 1%Z.
Proof.
  intros Hsrc Hlo Hup.
  destruct (predict_cells h self X lower upper Hsrc Hlo Hup)
    as (labels & Hrun & _ & Hcell).
  exists labels. split; [done|].
  intros i c v l u HX Hl Hu Hul Hv. rewrite (Hcell i c _ _ _ HX Hl Hu).
  f_equal. apply label_of_outside. by apply ltb_cotrans.
Qed.

(** X10.  An interval without width.  With equal bounds [l = u], not NaN,
    a value equal to the bound is labelled 0 and any other value that is
    not NaN is labelled 1.  Where the half width comes out as [+0.0], a
    value at a positive distance from the centre scores 1 ([z = +inf]) and a
    value at distance zero scores NaN ([z = 0 / 0]); where it comes out as
    [-0.0], a positive distance scores 0 ([z = -inf]). *)
Theorem zero_width_label_and_score h self X lower upper :
  interval_source_returns h self X lower upper →
  Frame.same_labels X lower → Frame.same_labels X upper →
  ∃ labels scores,
    _predict self X h = (inr labels, h) ∧
    _predict_proba self X h = (inr scores, h) ∧
    ∀ i c v l u,
      Frame.cell X i c = Some v →
      Frame.cell lower i c = Some l →
      Frame.cell upper i c = Some u →
      let d := abs (v - (u + l) / 2) in
      let hw := (u - l) / 2 in
      (l = u → is_nan u = false →
       ((v =? u) = true → Frame.cell labels i c = Some 0%Z) ∧
       (is_nan v = false → (v =? u) = false →
        Frame.cell labels i c = Some 1%Z)) ∧
      (hw = 0 → (0 <? d) = true → Frame.cell scores i c = Some 1) ∧
      (hw = neg_zero → (0 <? d) = true → Frame.cell scores i c = Some 0) ∧
      (hw = 0 ∨ hw = neg_zero → (d =? 0) = true →
       Frame.cell scores i c = Some nan).
Proof.
  intros Hsrc Hlo Hup.
  destruct (predict_cells h self X lower upper Hsrc Hlo Hup)
    as (labels & Hrun & _ & Hlab).
  destruct (predict_proba_cells h self X lower upper Hsrc)
    as (scores & Hrun' & _ & Hsc).
  exists labels, scores. split; [done|]. split; [done|].
  intros i c v l u HX Hl Hu d hw.
  rewrite (Hlab i c _ _ _ HX Hl Hu), (Hsc i c _ _ _ HX Hl Hu).
  unfold score_of. fold d. fold hw.
  split; [|split; [|split]].
  - intros -> Hnan. split.
    + intros Heq. f_equal. apply label_of_boundary; [apply ltb_irrefl | by left].
    + intros Hv Hne. f_equal. apply label_of_outside.
      destruct (ltb_total v u Hv Hnan Hne); auto.
  - intros -> Hd. destruct (div_positive_zero d Hd) as [-> _]. reflexivity.
  - intros -> Hd. destruct (div_positive_zero d Hd) as [_ ->]. reflexivity.
  - intros [-> | ->] Hd; destruct (div_zero_zero d Hd) as [Hz Hnz];
      [rewrite Hz | rewrite Hnz]; reflexivity.
Qed.

(** X14.  Observations that are not finite.  A NaN observation is labelled
    0 and scores NaN.  An infinite observation is labelled 1 when both
    bounds are finite; it scores 1 when the centre comes out finite and the
    half width positive and finite. *)
Theorem non_finite_observation h self X lower upper :
  interval_source_returns h self X lower upper →
  Frame.same_labels X lower → Frame.same_labels X upper →
  ∃ labels scores,
    _predict self X h = (inr labels, h) ∧
    _predict_proba self X h = (inr scores, h) ∧
    ∀ i c v l u,
      Frame.cell X i c = Some v →
      Frame.cell lower i c = Some l →
      Frame.cell upper i c = Some u →
      let center := (u + l) / 2 in
      let hw := (u - l) / 2 in
      (v = nan →
       Frame.cell labels i c = Some 0%Z ∧ Frame.cell scores i c = Some nan) ∧
      (v = infinity ∨ v = neg_infinity →
       is_finite l = true → is_finite u = true →
       Frame.cell labels i c = Some 1%Z) ∧
      (v = infinity ∨ v = neg_infinity →
       is_finite center = true → (0 <? hw) = true → is_infinity hw = false →
       Frame.cell scores i c = Some 1).
Proof.
  intros Hsrc Hlo Hup.
  destruct (predict_cells h self X lower upper Hsrc Hlo Hup)
    as (labels & Hrun & _ & Hlab).
  destruct (predict_proba_cells h self X lower upper Hsrc)
    as (scores & Hrun' & _ & Hsc).
  exists labels, scores. split; [done|]. split; [done|].
  intros i c v l u HX Hl Hu center hw.
  rewrite (Hlab i c _ _ _ HX Hl Hu), (Hsc i c _ _ _ HX Hl Hu).
  split; [|split].
  - intros ->. by rewrite label_of_nan, score_of_nan.
  - intros Hv Hfl Hfu. f_equal. apply label_of_outside.
    destruct Hv as [-> | ->].
    + right. apply (ltb_infinity u Hfu).
    + left. apply (ltb_infinity l Hfl).
  - intros Hv Hc Hpos Hfin. f_equal.
    apply score_of_infinite_distance; [|done|done].
    fold center. destruct (sub_infinity_l center Hc) as [Hp Hn].
    destruct Hv as [-> | ->]; [rewrite Hp | rewrite Hn]; reflexivity.
Qed.

(** X21.  Where the sum of the bounds overflows, the centre comes out
    infinite, and every finite observation, the one in the middle of the
    interval included, scores 1 as long as the half width is positive and
    finite. *)
Theorem midpoint_overflow_saturates h self X lower upper :
  interval_source_returns h self X lower upper →
  ∃ scores,
    _predict_proba self X h = (inr scores, h) ∧
    ∀ i c v l u,
      Frame.cell X i c = Some v →
      Frame.cell lower i c = Some l →
      Frame.cell upper i c = Some u →
      is_finite v = true →
      is_infinity ((u + l) / 2) = true →
      (0 <? (u - l) / 2) = true → is_infinity ((u - l) / 2) = false →
      Frame.cell scores i c = Some 1.
Proof.
  intros Hsrc.
  destruct (predict_proba_cells h self X lower upper Hsrc)
    as (scores & Hrun & _ & Hcell).
  exists scores. split; [done|].
  intros i c v l u HX Hl Hu Hv Hc Hpos Hfin.
  rewrite (Hcell i c _ _ _ HX Hl Hu). f_equal.
  apply score_of_infinite_distance; [|done|done].
  destruct (sub_infinity_r v Hv) as [Hp Hn].
  destruct (is_infinity_cases _ Hc) as [-> | ->];
    [rewrite Hp | rewrite Hn]; reflexivity.
Qed.


End score_edges.

Section score_edge_witnesses.
#[local] Existing Instance Lib.pandas.
#[local] Existing Instance Lib.numpy.
Local Open Scope float_scope.

(** Band [5, 3]: the value 4, between the two, is labelled 1. *)
Lemma inverted_bounds_label_witness :
  ∃ labels,
    _predict 2%positive (Band.query 4) (Band.world 5 3)
      = (inr labels, Band.world 5 3) ∧
    Frame.cell labels 0 "y" = Some 1%Z.
Proof.
  destruct (inverted_bounds_label (Band.world 5 3) 2%positive (Band.query 4)
              (Band.bound 5) (Band.bound 3) (band_source 5 3 4)
              (band_labels_agree 4 5) (band_labels_agree 4 3))
    as (labels & Hrun & Hcell).
  exists labels. split; [exact Hrun|].
  apply (Hcell 0%Z "y" 4 5 3 (band_cell_query 4) (band_cell_bound 5)
           (band_cell_bound 3)); reflexivity.
Defined.

(** Band [10, 10]: the value 11 is labelled 1 and scores 1. *)
Lemma zero_width_label_and_score_witness :
  ∃ labels scores,
    _predict 2%positive (Band.query 11) (Band.world 10 10)
      = (inr labels, Band.world 10 10) ∧
    _predict_proba 2%positive (Band.query 11) (Band.world 10 10)
      = (inr scores, Band.world 10 10) ∧
    Frame.cell labels 0 "y" = Some 1%Z ∧
    Frame.cell scores 0 "y" = Some 1.
Proof.
  destruct (zero_width_label_and_score (Band.world 10 10) 2%positive
              (Band.query 11) (Band.bound 10) (Band.bound 10)
              (band_source 10 10 11) (band_labels_agree 11 10)
              (band_labels_agree 11 10))
    as (labels & scores & Hrun & Hrun' & Hcell).
  pose proof (Hcell 0%Z "y" 11 10 10 (band_cell_query 11) (band_cell_bound 10)
                (band_cell_bound 10)) as Hc.
  cbv zeta in Hc. destruct Hc as (Hlab & Hone & _ & _).
  exists labels, scores. split; [exact Hrun|]. split; [exact Hrun'|]. split.
  - apply (Hlab eq_refl eq_refl); reflexivity.
  - apply Hone; reflexivity.
Defined.

(** Band [8, 12]: the observation [+inf] is labelled 1 and scores 1. *)
Lemma non_finite_observation_witness :
  ∃ labels scores,
    _predict 2%positive (Band.query infinity) (Band.world 8 12)
      = (inr labels, Band.world 8 12) ∧
    _predict_proba 2%positive (Band.query infinity) (Band.world 8 12)
      = (inr scores, Band.world 8 12) ∧
    Frame.cell labels 0 "y" = Some 1%Z ∧
    Frame.cell scores 0 "y" = Some 1.
Proof.
  destruct (non_finite_observation (Band.world 8 12) 2%positive
              (Band.query infinity) (Band.bound 8) (Band.bound 12)
              (band_source 8 12 infinity) (band_labels_agree infinity 8)
              (band_labels_agree infinity 12))
    as (labels & scores & Hrun & Hrun' & Hcell).
  pose proof (Hcell 0%Z "y" infinity 8 12 (band_cell_query infinity)
                (band_cell_bound 8) (band_cell_bound 12)) as Hc.
  cbv zeta in Hc. destruct Hc as (_ & Hlab & Hsc).
  exists labels, scores. split; [exact Hrun|]. split; [exact Hrun'|]. split.
  - apply Hlab; [left|..]; reflexivity.
  - apply Hsc; [left|..]; reflexivity.
Defined.

(** The band [2^1023, 1.5 * 2^1023]: the value 1.25 * 2^1023 in its middle
    scores 1. *)
Lemma midpoint_overflow_saturates_witness :
  ∃ scores,
    _predict_proba 2%positive (Band.query 0x1.4p1023)
        (Band.world 0x1p1023 0x1.8p1023)
      = (inr scores, Band.world 0x1p1023 0x1.8p1023) ∧
    Frame.cell scores 0 "y" = Some 1.
Proof.
  destruct (midpoint_overflow_saturates (Band.world 0x1p1023 0x1.8p1023)
              2%positive (Band.query 0x1.4p1023) (Band.bound 0x1p1023)
              (Band.bound 0x1.8p1023) (band_source _ _ _))
    as (scores & Hrun & Hcell).
  exists scores. split; [exact Hrun|].
  apply (Hcell 0%Z "y" 0x1.4p1023 0x1p1023 0x1.8p1023 (band_cell_query _)
           (band_cell_bound _) (band_cell_bound _)); reflexivity.
Defined.


(** The band [0, 2^-1074], of positive width: the half width underflows to
    0, and the value 0 scores NaN. *)
Lemma half_width_underflow_nan :
  (0 <? 0x1p-1074) = true ∧
  ∃ scores,
    _predict_proba 2%positive (Band.query 0) (Band.world 0 0x1p-1074)
      = (inr scores, Band.world 0 0x1p-1074) ∧
    Frame.cell scores 0 "y" = Some nan.
Proof.
  split; [reflexivity|].
  destruct (predict_proba_cells (Band.world 0 0x1p-1074) 2%positive
              (Band.query 0) (Band.bound 0) (Band.bound 0x1p-1074)
              (band_source _ _ _))
    as (scores & Hrun & _ & Hcell).
  exists scores. split; [exact Hrun|].
  rewrite (Hcell 0%Z "y" _ _ _ (band_cell_query _) (band_cell_bound _)
             (band_cell_bound _)).
  reflexivity.
Qed.

End score_edge_witnesses.
